(** * django_hstore.hstore: lookups and fields over PostgreSQL hstore columns

    A shallow embedding of [src/django_hstore/hstore.py] (Python 2, written
    against the custom-lookup prototype of Django 1.6) and the properties of
    its lookup resolution, SQL rendering and value preparation.

    Python objects are members of the universe [pyobj]; exceptions are the
    [Raise] side of [result]; dictionaries are [gmap string pyobj]; methods
    inherited from Django's [Lookup] and the field registry of Django are
    parameters of the development. *)

From Stdlib Require Import ZArith Ascii String.
From stdpp Require Import base option strings list gmap fin_maps.

Local Open Scope string_scope.

(** ** Python runtime: exceptions, values, truthiness, [%] formatting *)

Inductive exception : Type :=
| LookupError (msg : string)
| ValueError (msg : string)
| TypeError
| AttributeError
| IndexError
| KeyError.

Inductive result (A : Type) : Type :=
| Ok (a : A)
| Raise (e : exception).

Arguments Ok {A} a.
Arguments Raise {A} e.

#[global] Instance result_ret : MRet result := fun _ a => Ok a.
#[global] Instance result_bind : MBind result := fun _ _ f m =>
  match m with
  | Ok a => f a
  | Raise e => Raise e
  end.

Definition succeeds {A} (r : result A) : bool :=
  match r with Ok _ => true | Raise _ => false end.

(** [datetime.date]: a calendar day. *)
Record date : Type := Date { year : nat; month : nat; day : nat }.

#[warnings="-register-all"]
Inductive pyobj : Type :=
| VNone
| VBool (b : bool)
| VInt (n : Z)
| VStr (s : string)
| VDate (d : date)
| VList (l : list pyobj)
| VTuple (l : list pyobj)
| VDict (d : gmap string pyobj).

(** [bool(v)]: what [if v], [not v] and [v or w] test. *)
Definition truthy (v : pyobj) : bool :=
  match v with
  | VNone => false
  | VBool b => b
  | VInt n => negb (n =? 0)%Z
  | VStr s => negb (String.eqb s "")
  | VDate _ => true
  | VList l | VTuple l => negb (Nat.eqb (length l) 0)
  | VDict d => negb (Nat.eqb (size d) 0)
  end.

(** [isinstance(v, dict)], [isinstance(v, (list, tuple))],
    [isinstance(v, basestring)], [isinstance(v, date)]. *)
Definition is_dict (v : pyobj) : bool :=
  match v with VDict _ => true | _ => false end.
Definition is_list_or_tuple (v : pyobj) : bool :=
  match v with VList _ | VTuple _ => true | _ => false end.
Definition is_basestring (v : pyobj) : bool :=
  match v with VStr _ => true | _ => false end.
Definition is_date (v : pyobj) : bool :=
  match v with VDate _ => true | _ => false end.

(** [v[0]]. *)
Definition getitem0 (v : pyobj) : result pyobj :=
  match v with
  | VList l | VTuple l =>
      match l with x :: _ => Ok x | [] => Raise IndexError end
  | VStr s =>
      match s with
      | String c _ => Ok (VStr (String c EmptyString))
      | EmptyString => Raise IndexError
      end
  | VDict _ => Raise KeyError
  | _ => Raise TypeError
  end.

(** [v.insert(0, x)]: only lists have the method. *)
Definition insert0 (x : pyobj) (v : pyobj) : result pyobj :=
  match v with
  | VList l => Ok (VList (x :: l))
  | _ => Raise AttributeError
  end.

(** [(x,) + v]: tuple concatenation. *)
Definition tuple_cons (x : pyobj) (v : pyobj) : result pyobj :=
  match v with
  | VTuple l => Ok (VTuple (x :: l))
  | _ => Raise TypeError
  end.

(** The items of an iterable, as [list.extend] walks them. *)
Definition iter_items (v : pyobj) : result (list pyobj) :=
  match v with
  | VList l | VTuple l => Ok l
  | VStr s => Ok ((fun c => VStr (String c EmptyString)) <$> list_ascii_of_string s)
  | VDict d => Ok (VStr <$> (map_to_list d).*1)
  | _ => Raise TypeError
  end.

(** [v.extend(w)]: only lists have the method. *)
Definition extend (v w : pyobj) : result pyobj :=
  match v with
  | VList l => items ← iter_items w; Ok (VList (l ++ items))
  | _ => Raise AttributeError
  end.

(** [fmt % args] for the conversions the module uses: [%s] takes the next
    argument, [%%] is a percent sign. Too few or too many arguments raise
    [TypeError]; a dangling or unknown conversion raises [ValueError]. *)
Fixpoint pyformat (fmt : string) (args : list string) : result string :=
  match fmt with
  | EmptyString =>
      match args with
      | [] => Ok EmptyString
      | _ :: _ => Raise TypeError
      end
  | String "%"%char rest =>
      match rest with
      | String "s"%char rest' =>
          match args with
          | a :: args' => r ← pyformat rest' args'; Ok (a +:+ r)
          | [] => Raise TypeError
          end
      | String "%"%char rest' =>
          r ← pyformat rest' args; Ok (String "%"%char r)
      | String _ _ => Raise (ValueError "unsupported format character")
      | EmptyString => Raise (ValueError "incomplete format")
      end
  | String c rest => r ← pyformat rest args; Ok (String c r)
  end.

(** The double-quote character, for messages that quote a name. *)
Definition dquote : string := String "034"%char EmptyString.

(** ** Django field kinds used for the value extracted from the hstore *)

Inductive FieldKind : Type := CharField | IntegerField | DateField.

(** ** HStoreLookup *)

Module HStoreLookup.
Section Methods.
(** The quoting function, the database connection and the value
    annotation are opaque: the module only passes them on. *)
Context {QN Connection Annotation Field : Type}.

(** The interface of Django's [Lookup] as this module calls it on the
    nested lookup. *)
Record Lookup : Type := {
  lk_common_normalize :
    pyobj → option FieldKind → QN → Connection → result (string * pyobj);
  lk_prepare_lhs :
    pyobj → QN → Connection → bool → result (string * pyobj);
  lk_as_constraint_sql :
    QN → Connection → string → Annotation → string → pyobj → Field →
    result (string * pyobj);
  lk_as_sql : QN → Connection → pyobj → result (string * pyobj)
}.

(** The attributes of an instance; [cast] is only assigned on the keyed
    path, so it is absent ([None]) for [exact] and [contains]. *)
Record t : Type := {
  lookup_type : string;
  retval_field : option FieldKind;
  nested_lookup : option Lookup;
  cast : option string
}.

(** [field.get_lookup(names, None)] of Django's fields; a falsy result is
    [None]. *)
Variable get_lookup : FieldKind → list string → option Lookup.

Definition is_top_level (lookup_type : string) : bool :=
  String.eqb lookup_type "exact" || String.eqb lookup_type "contains".

Definition is_type_convert (tok : string) : bool :=
  String.eqb tok "asint" || String.eqb tok "asdate".

Definition msg_no_nesting (lookup_type : string) : string :=
  "The hstore lookup " +:+ dquote +:+ lookup_type +:+ dquote
    +:+ " does not support nested lookups".
Definition msg_too_deep : string := "Lookup nesting too deep for hstore field!".
Definition msg_unknown : string := "Unknown nested lookup!".

(** [nested_lookups or ['exact']] *)
Definition or_exact (nested_lookups : list string) : list string :=
  match nested_lookups with [] => ["exact"] | _ :: _ => nested_lookups end.

(** Lines 39-42: resolve the remaining comparison on [retval_field]. *)
Definition finish (lookup_type : string) (retval : FieldKind) (cast : string)
    (nested_lookups : list string) : result t :=
  match get_lookup retval (or_exact nested_lookups) with
  | Some nl =>
      Ok {| lookup_type := lookup_type; retval_field := Some retval;
            nested_lookup := Some nl; cast := Some cast |}
  | None => Raise (LookupError msg_unknown)
  end.

(** [HStoreLookup(lookup_type, nested_lookups=None)] *)
Definition __init__ (lookup_type : string)
    (nested_lookups : option (list string)) : result t :=
  if is_top_level lookup_type then
    match nested_lookups with
    | Some (_ :: _) => Raise (LookupError (msg_no_nesting lookup_type))
    | _ =>
        Ok {| lookup_type := lookup_type; retval_field := None;
              nested_lookup := None; cast := None |}
    end
  else
    match nested_lookups with
    | None => Raise TypeError
    | Some toks =>
        if Nat.ltb 2 (length toks) then Raise (LookupError msg_too_deep)
        else
          match toks with
          | [] => finish lookup_type CharField "%s" toks
          | type_convert :: rest =>
              if is_type_convert type_convert then
                let toks' :=
                  [ if Nat.eqb (length toks) 2
                    then nth 1 toks "exact" else "exact" ] in
                let '(retval, cast) :=
                  let rc := (CharField, "%s") in
                  let rc :=
                    if String.eqb type_convert "asint"
                    then (IntegerField, "(%s)::INTEGER") else rc in
                  if String.eqb type_convert "asdate"
                  then (DateField, "(%s)::DATE") else rc in
                finish lookup_type retval cast toks'
              else if Nat.eqb (length toks) 2 then
                Raise (LookupError msg_too_deep)
              else finish lookup_type CharField "%s" toks
          end
    end.

(** Methods inherited from Django's [Lookup], reached through [super] or
    [self]; [get_prep_lookup] is the method of the field the lookup is
    applied to. *)
Variable Lookup_common_normalize :
  t → pyobj → Field → QN → Connection → result (string * pyobj).
Variable Lookup_prepare_lhs :
  t → pyobj → QN → Connection → result (string * pyobj).
Variable Lookup_rhs_format : t → Annotation → Connection → string → string.
Variable Lookup_as_sql : t → QN → Connection → pyobj → result (string * pyobj).
Variable get_prep_lookup : Field → string → pyobj → result pyobj.

(** An attribute read on [None] or of an attribute never assigned. *)
Definition attr {A} (o : option A) : result A :=
  match o with Some a => Ok a | None => Raise AttributeError end.

Definition common_normalize (self : t) (params : pyobj) (field : Field)
    (qn : QN) (connection : Connection) : result (string * pyobj) :=
  match nested_lookup self with
  | Some nl => lk_common_normalize nl params (retval_field self) qn connection
  | None =>
      '(rhs_sql, params) ← Lookup_common_normalize self params field qn connection;
      p0 ← getitem0 params;
      v ← get_prep_lookup field (lookup_type self) p0;
      Ok (rhs_sql, VList [v])
  end.

(** [try: params.insert(0, x) except: params = (x,) + params] *)
Definition insert0_or_tuple (x params : pyobj) : result pyobj :=
  match insert0 x params with
  | Ok p => Ok p
  | Raise _ => tuple_cons x params
  end.

Definition prepare_lhs (self : t) (lvalue : pyobj) (qn : QN)
    (connection : Connection) (lhs_only : bool) : result (string * pyobj) :=
  '(lhs_clause, params) ← Lookup_prepare_lhs self lvalue qn connection;
  match nested_lookup self with
  | Some nl =>
      c ← attr (cast self);
      extract ← pyformat "%s -> %%s" [lhs_clause];
      lhs_clause ← pyformat c [extract];
      params ← insert0_or_tuple (VStr (lookup_type self)) params;
      '(lhs_clause, inner_params) ←
        lk_prepare_lhs nl (VStr lhs_clause) qn connection lhs_only;
      params ← extend params inner_params;
      Ok (lhs_clause, params)
  | None => Ok (lhs_clause, params)
  end.

Definition as_constraint_sql (self : t) (qn : QN) (connection : Connection)
    (lhs_clause : string) (value_annotation : Annotation) (rhs_sql : string)
    (params : pyobj) (field : Field) : result (string * pyobj) :=
  let rhs_format := Lookup_rhs_format self value_annotation connection rhs_sql in
  if String.eqb (lookup_type self) "exact" then
    p0 ← getitem0 params;
    if is_dict p0 then
      sql ← pyformat "%s = %s" [lhs_clause; rhs_format]; Ok (sql, params)
    else Raise (ValueError "Invalid value")
  else if String.eqb (lookup_type self) "contains" then
    p0 ← getitem0 params;
    if is_dict p0 then
      sql ← pyformat "%s @> %s" [lhs_clause; rhs_format]; Ok (sql, params)
    else if is_list_or_tuple p0 then
      if truthy params then
        sql ← pyformat "%s ?& %s" [lhs_clause; rhs_format]; Ok (sql, params)
      else Raise (ValueError "invalid value")
    else if is_basestring p0 then
      sql ← pyformat "%s ? %s" [lhs_clause; rhs_format]; Ok (sql, params)
    else Raise (ValueError "invalid value")
  else
    nl ← attr (nested_lookup self);
    lk_as_constraint_sql nl qn connection lhs_clause value_annotation rhs_sql
      params field.

Definition as_sql (self : t) (qn : QN) (connection : Connection)
    (lvalue : pyobj) : result (string * pyobj) :=
  '(lvalue, params) ← prepare_lhs self lvalue qn connection true;
  match nested_lookup self with
  | Some nl =>
      '(inner_sql, inner_params) ← lk_as_sql nl qn connection (VStr lvalue);
      params ← extend params inner_params;
      Ok (inner_sql, params)
  | None => Lookup_as_sql self qn connection (VStr lvalue)
  end.

End Methods.

Arguments Lookup : clear implicits.
Arguments t : clear implicits.

End HStoreLookup.

(** ** HStoreField *)

Module HStoreField.
Section Prepare.

(** [v.strftime('%Y-%m-%d')] of the datetime library: the text it gives
    for a date, or the exception it raises (Python 2 raises ValueError
    for every year before 1900; Python 3 does not pad short years). *)
Variable strftime_Ymd : date → result string.

(** One round of the loop over [value.items()]; an exception raised in
    an earlier round ends the loop. *)
Definition prep_item (k : string) (v : pyobj)
    (acc : result (gmap string pyobj)) : result (gmap string pyobj) :=
  copy ← acc;
  match v with
  | VDate d => text ← strftime_Ymd d; Ok (<[k := VStr text]> copy)
  | _ => Ok copy
  end.

(** The loop runs over the items of the copy as they were when it
    started, in the order of the dict, and assigns into the copy. *)
Definition get_prep_value (value : pyobj) : result pyobj :=
  match value with
  | VDict d => copy ← map_fold prep_item (Ok d) d; Ok (VDict copy)
  | _ => Ok value
  end.

End Prepare.

Definition get_lookup {QN Connection Annotation Field : Type}
    (registry : FieldKind → list string →
                option (HStoreLookup.Lookup QN Connection Annotation Field))
    (lookup_names : list string)
    : result (HStoreLookup.t QN Connection Annotation Field) :=
  match lookup_names with
  | [] => Raise IndexError
  | first :: rest => HStoreLookup.__init__ registry first (Some rest)
  end.

Definition db_type : string := "hstore".

End HStoreField.

(** ** DictionaryField *)

Module DictionaryField.

Definition get_prep_lookup (lookup : string) (value : pyobj) : pyobj := value.

(** [value or {}] *)
Definition to_python (value : pyobj) : pyobj :=
  if truthy value then value else VDict ∅.

Definition _value_to_python (value : pyobj) : pyobj := value.

End DictionaryField.

(** ** HStoreDictionary and HStoreDescriptor

    Model instances are objects with identity: an instance is an address
    in a heap that holds its [__dict__]. *)

Module HStoreDictionary.
Section Class.
Context {Field : Type}.

(** The builtin [dict(value, **params)]. *)
Variable dict_init : pyobj → gmap string pyobj → result (gmap string pyobj).

(** The dict itself and the two attributes [__init__] adds. *)
Record t : Type := {
  items : gmap string pyobj;
  field : option Field;
  instance : option nat
}.

(** [HStoreDictionary(value=None, field=None, instance=None, **params)] *)
Definition __init__ (value : pyobj) (field : option Field)
    (instance : option nat) (params : gmap string pyobj) : result t :=
  items ← dict_init value params;
  Ok {| items := items; field := field; instance := instance |}.

End Class.

Arguments t : clear implicits.

End HStoreDictionary.

Module HStoreDescriptor.
Section Class.
Context {Field : Type}.
Variable dict_init : pyobj → gmap string pyobj → result (gmap string pyobj).

(** [field.name] *)
Variable name : Field → string.

(** What an attribute holds: an HStoreDictionary, or any other object. *)
Inductive attribute : Type :=
| Plain (v : pyobj)
| Hstore (d : HStoreDictionary.t Field).

Record t : Type := { field : Field }.

(** [instance.__dict__]; an instance nothing was stored on has an empty
    one. *)
Definition __dict__ (heap : gmap nat (gmap string attribute)) (instance : nat)
    : gmap string attribute :=
  default ∅ (heap !! instance).

Definition __get__ (self : t) (heap : gmap nat (gmap string attribute))
    (instance : option nat) : result attribute :=
  match instance with
  | Some i =>
      match __dict__ heap i !! name (field self) with
      | Some v => Ok v
      | None => Raise KeyError
      end
  | None => Raise AttributeError
  end.

(** [field._attribute_class] is [HStoreDictionary] for [HStoreField] and
    the two fields derived from it. *)
Definition __set__ (self : t) (heap : gmap nat (gmap string attribute))
    (instance : nat) (value : attribute)
    : result (gmap nat (gmap string attribute)) :=
  value ← match value with
          | Hstore d => Ok d
          | Plain v =>
              HStoreDictionary.__init__ dict_init v (Some (field self))
                (Some instance) ∅
          end;
  Ok (<[instance := <[name (field self) := Hstore value]> (__dict__ heap instance)]>
        heap).

End Class.

Arguments attribute : clear implicits.
Arguments t : clear implicits.

End HStoreDescriptor.

(** ** django_hstore.util: references to model instances *)

Module util.

(** A model instance, as far as a reference sees it: the table it lives
    in and its primary key. *)
Record Entity : Type := { table : string; pk : string }.

(** Modelled from the spec: the stable string identifier of an entity,
    [<table>:<primary_key>] ([django_hstore/util.py] is not part of the
    sources at hand). *)
Definition identify_instance (e : Entity) : string :=
  table e +:+ ":" +:+ pk e.

(** Modelled from the spec: an identifier read back as table name and
    primary key, cut at the first colon. *)
Fixpoint split_identifier (s : string) : option (string * string) :=
  match s with
  | EmptyString => None
  | String c rest =>
      if Ascii.eqb c ":"%char then Some (EmptyString, rest)
      else '(t, p) ← split_identifier rest; Some (String c t, p)
  end.

(** Modelled from the spec: [acquire_reference] asks the record-lookup
    provider [fetchByIdentifier(tableName, primaryKey) -> Entity | None];
    an identifier that does not resolve gives [None]. *)
Definition acquire_reference
    (fetchByIdentifier : string → string → option Entity)
    (reference : string) : option Entity :=
  '(t, p) ← split_identifier reference; fetchByIdentifier t p.

(** Modelled from the spec: [serialize_references] maps each entity to its
    identifier and [None] to the empty string. *)
Definition serialize_references (references : gmap string (option Entity))
    : gmap string string :=
  (λ o, match o with Some e => identify_instance e | None => EmptyString end)
    <$> references.

(** Modelled from the spec: a lazy reference holds the stored identifier
    and, once read, the entity it resolved to. *)
Record LazyReference : Type := {
  reference : string;
  resolved : option (option Entity)
}.

(** Modelled from the spec: [unserialize_references] wraps every stored
    identifier in an unresolved lazy reference; nothing is fetched. *)
Definition unserialize_references (references : gmap string string)
    : gmap string LazyReference :=
  (λ s, {| reference := s; resolved := None |}) <$> references.

(** Modelled from the spec: reading a lazy reference resolves it on the
    first read, through the conversion of the owning field, and keeps the
    entity on the reference for later reads. *)
Definition read (value_to_python : option string → option Entity)
    (r : LazyReference) : option Entity * LazyReference :=
  match resolved r with
  | Some e => (e, r)
  | None =>
      let e := value_to_python (Some (reference r)) in
      (e, {| reference := reference r; resolved := Some e |})
  end.

End util.

(** ** ReferencesField *)

Module ReferencesField.
Import util.

(** [serialize_references(value) if value else {}] *)
Definition get_prep_value (value : option (gmap string (option Entity)))
    : gmap string string :=
  match value with
  | Some d => if negb (Nat.eqb (size d) 0) then serialize_references d else ∅
  | None => ∅
  end.

(** [unserialize_references(value) if value else {}] *)
Definition to_python (value : option (gmap string string))
    : gmap string LazyReference :=
  match value with
  | Some d => if negb (Nat.eqb (size d) 0) then unserialize_references d else ∅
  | None => ∅
  end.

(** [acquire_reference(value) if value else None] *)
Definition _value_to_python
    (fetchByIdentifier : string → string → option Entity)
    (value : option string) : option Entity :=
  match value with
  | Some s =>
      if negb (String.eqb s EmptyString)
      then acquire_reference fetchByIdentifier s else None
  | None => None
  end.

End ReferencesField.

(** ** Sample collaborators

    Stand-ins for the parts of Django the module calls, used to run the
    definitions on concrete lookups. *)

Module Sample.
Import HStoreLookup.

Abbreviation Lookup := (HStoreLookup.Lookup unit unit unit unit).
Abbreviation t := (HStoreLookup.t unit unit unit unit).

(** A left-hand side is a column reference [VStr sql], or an expression
    with bound parameters of its own, [VTuple [VStr sql; params]]. *)
Definition Lookup_prepare_lhs (self : t) (lvalue : pyobj) (qn connection : unit)
    : result (string * pyobj) :=
  match lvalue with
  | VStr sql => Ok (sql, VList [])
  | VTuple [VStr sql; params] => Ok (sql, params)
  | _ => Raise TypeError
  end.

Definition Lookup_common_normalize (self : t) (params : pyobj) (field : unit)
    (qn connection : unit) : result (string * pyobj) :=
  Ok ("%s", params).

Definition Lookup_rhs_format (self : t) (value_annotation connection : unit)
    (rhs_sql : string) : string := rhs_sql.

Definition Lookup_as_sql (self : t) (qn connection : unit) (lvalue : pyobj)
    : result (string * pyobj) := Raise AttributeError.

Definition get_prep_lookup (field : unit) (lookup : string) (value : pyobj)
    : result pyobj := Ok (DictionaryField.get_prep_lookup lookup value).

(** A comparison [<lhs> <op> %s] against the value [rhs]. *)
Definition comparison (op : string) (rhs : pyobj) : Lookup := {|
  lk_common_normalize := λ params _ _ _, Ok ("%s", params);
  lk_prepare_lhs := λ lvalue _ _ _,
    match lvalue with
    | VStr sql => Ok (sql, VList [])
    | _ => Raise TypeError
    end;
  lk_as_constraint_sql := λ _ _ lhs_clause _ rhs_sql params _,
    sql ← pyformat ("%s " +:+ op +:+ " %s") [lhs_clause; rhs_sql];
    Ok (sql, params);
  lk_as_sql := λ _ _ lvalue,
    match lvalue with
    | VStr sql => Ok (sql +:+ " " +:+ op +:+ " %s", VList [rhs])
    | _ => Raise TypeError
    end
|}.

(** The registry knows [exact] and [gt] on every field kind. *)
Definition get_lookup (rhs : pyobj) (kind : FieldKind) (names : list string)
    : option Lookup :=
  match names with
  | [name] =>
      if String.eqb name "exact" then Some (comparison "=" rhs)
      else if String.eqb name "gt" then Some (comparison ">" rhs)
      else None
  | _ => None
  end.

(** [mykey__asint] compared with 5, as [__init__] builds it. *)
Definition mykey_asint : t := {|
  lookup_type := "mykey";
  retval_field := Some IntegerField;
  nested_lookup := Some (comparison "=" (VInt 5));
  cast := Some "(%s)::INTEGER"
|}.

(** A top-level lookup, as [__init__] builds it. *)
Definition top_level (lookup_type : string) : t := {|
  lookup_type := lookup_type;
  retval_field := None;
  nested_lookup := None;
  cast := None
|}.

(** The column, and an expression over it with a parameter of its own. *)
Definition col : pyobj := VStr "col".
Definition coalesce_col : pyobj :=
  VTuple [VStr "coalesce(col, %s)"; VList [VStr "a=>0"]].


(** One element of the sequence [dict] is built from, as a key and a
    value: a list or tuple of two items or a string of two characters.
    Keys are the strings an hstore can hold. *)
Definition dict_pair (item : pyobj) : result (string * pyobj) :=
  match item with
  | VList [VStr k; v] | VTuple [VStr k; v] => Ok (k, v)
  | VList [_; _] | VTuple [_; _] => Raise TypeError
  | VList _ | VTuple _ => Raise (ValueError "dictionary update sequence element")
  | VStr (String a (String b EmptyString)) =>
      Ok (String a EmptyString, VStr (String b EmptyString))
  | VStr _ => Raise (ValueError "dictionary update sequence element")
  | VDict _ => Raise (ValueError "dictionary update sequence element")
  | _ => Raise TypeError
  end.

Fixpoint dict_pairs (items : list pyobj) (acc : gmap string pyobj)
    : result (gmap string pyobj) :=
  match items with
  | [] => Ok acc
  | item :: rest => '(k, v) ← dict_pair item; dict_pairs rest (<[k := v]> acc)
  end.

(** [dict(value, **params)] for string keys: a dict is copied, a list or
    tuple is read as pairs (a later pair wins), the empty string is an
    empty sequence, and the keyword arguments are laid over the result;
    [None], numbers and dates are not iterable. *)
Definition dict_init (value : pyobj) (params : gmap string pyobj)
    : result (gmap string pyobj) :=
  match value with
  | VDict d => Ok (params ∪ d)
  | VList items | VTuple items => d ← dict_pairs items ∅; Ok (params ∪ d)
  | VStr EmptyString => Ok params
  | VStr _ => Raise (ValueError "dictionary update sequence element")
  | _ => Raise TypeError
  end.

(** [strftime('%Y-%m-%d')] as Python 2 has it: ValueError for a year
    before 1900, otherwise the four digits of the year and two digits
    each for month and day. A triple that is no day of the calendar is
    no date; it gets the ValueError as well. *)
Definition digit (n : nat) : ascii := ascii_of_nat (48 + n mod 10).

Definition two_digits (n : nat) : string :=
  String (digit (n / 10)) (String (digit n) EmptyString).

Definition four_digits (n : nat) : string :=
  String (digit (n / 1000)) (String (digit (n / 100)) (two_digits n)).

Definition is_leap (y : nat) : bool :=
  Nat.eqb (y mod 4) 0 && (negb (Nat.eqb (y mod 100) 0) || Nat.eqb (y mod 400) 0).

Definition days_in_month (y m : nat) : nat :=
  match m with
  | 1 | 3 | 5 | 7 | 8 | 10 | 12 => 31
  | 4 | 6 | 9 | 11 => 30
  | 2 => if is_leap y then 29 else 28
  | _ => 0
  end.

Definition is_calendar_day (d : date) : bool :=
  Nat.leb 1 (year d) && Nat.ltb (year d / 1000) 10
  && Nat.leb 1 (day d) && Nat.leb (day d) (days_in_month (year d) (month d)).

Definition strftime_Ymd (d : date) : result string :=
  if is_calendar_day d && Nat.leb 1900 (year d) then
    Ok (four_digits (year d) +:+ "-" +:+ two_digits (month d) +:+ "-"
          +:+ two_digits (day d))
  else Raise (ValueError "year is before 1900").

(** Two hstore fields of a model, by their names. *)
Definition field_name (f : string) : string := f.
Definition data : HStoreDescriptor.t string := {| HStoreDescriptor.field := "data" |}.
Definition tags : HStoreDescriptor.t string := {| HStoreDescriptor.field := "tags" |}.

(** A store with one author. *)
Definition author : util.Entity := {| util.table := "app_author"; util.pk := "7" |}.

Definition fetchByIdentifier (t p : string) : option util.Entity :=
  if String.eqb t "app_author" && String.eqb p "7" then Some author else None.

(** The same store after the author was deleted. *)
Definition fetch_deleted (t p : string) : option util.Entity := None.

End Sample.

(** ** Vocabulary of the statements *)

(** The cast template a nested token list selects: INTEGER for [asint],
    DATE for [asdate], none otherwise. *)
Definition cast_template (toks : list string) : string :=
  match toks with
  | first :: _ =>
      if String.eqb first "asint" then "(%s)::INTEGER"
      else if String.eqb first "asdate" then "(%s)::DATE"
      else "%s"
  | [] => "%s"
  end.

(** The left-hand side handed to the inner comparison: the extraction
    [<lhs> -> %s], wrapped in the cast the token list selects. *)
Definition extract_expr (toks : list string) (lhs : string) : string :=
  match toks with
  | first :: _ =>
      if String.eqb first "asint" then "(" +:+ lhs +:+ " -> %s)::INTEGER"
      else if String.eqb first "asdate" then "(" +:+ lhs +:+ " -> %s)::DATE"
      else lhs +:+ " -> %s"
  | [] => lhs +:+ " -> %s"
  end.

(** Whether the keyed path refuses a nested token list as too deep. *)
Definition nesting_too_deep (toks : list string) : bool :=
  Nat.ltb 2 (length toks)
  || (Nat.eqb (length toks) 2
      && negb (HStoreLookup.is_type_convert (hd EmptyString toks))).

(** The field kind of the extracted value a nested token list selects. *)
Definition retval_kind (toks : list string) : FieldKind :=
  match toks with
  | first :: _ =>
      if String.eqb first "asint" then IntegerField
      else if String.eqb first "asdate" then DateField
      else CharField
  | [] => CharField
  end.

(** The name of the comparison a nested token list leaves for the
    registry. *)
Definition comparison_name (toks : list string) : string :=
  match toks with
  | [] => "exact"
  | first :: rest =>
      if HStoreLookup.is_type_convert first then
        match rest with
        | [second] => second
        | _ => "exact"
        end
      else first
  end.

(** What the storage loop does to one value: a date becomes the text
    [strftime] gives for it, anything else stays (and so does a date
    [strftime] has no text for). *)
Definition date_to_text (strftime_Ymd : date → result string) (v : pyobj)
    : pyobj :=
  match v with
  | VDate d =>
      match strftime_Ymd d with
      | Ok text => VStr text
      | Raise _ => v
      end
  | _ => v
  end.

(** [strftime] has a text for every date among the values. *)
Definition dates_format (strftime_Ymd : date → result string)
    (d : gmap string pyobj) : Prop :=
  ∀ k dt, d !! k = Some (VDate dt) → succeeds (strftime_Ymd dt) = true.


(** The entity a lazy reference gives when read against a store. *)
Definition read_entity (fetchByIdentifier : string → string → option util.Entity)
    (r : util.LazyReference) : option util.Entity :=
  (util.read (ReferencesField._value_to_python fetchByIdentifier) r).1.

(** * Properties *)

(** ** Helper facts about the runtime *)

Lemma append_empty_r (s : string) : s +:+ EmptyString = s.
Proof.
  induction s as [|c s IH]; [reflexivity|].
  change (String c (s +:+ EmptyString) = String c s). by f_equal.
Qed.

Lemma append_assoc (a b c : string) : (a +:+ b) +:+ c = a +:+ (b +:+ c).
Proof.
  induction a as [|x a IH]; [reflexivity|].
  change (String x ((a +:+ b) +:+ c) = String x (a +:+ (b +:+ c))). by f_equal.
Qed.

Lemma bind_Ok {A B} (f : A → result B) (a : A) : (Ok a ≫= f) = f a.
Proof. reflexivity. Qed.

Lemma bind_Raise {A B} (f : A → result B) (e : exception) :
  (Raise e ≫= f) = Raise e.
Proof. reflexivity. Qed.

Lemma bind_inv_Ok {A B} (m : result A) (f : A → result B) (b : B) :
  (m ≫= f) = Ok b → ∃ a, m = Ok a ∧ f a = Ok b.
Proof. destruct m as [a|e]; [eauto | discriminate]. Qed.

(** ['%s <op> %s' % (a, b)] for an operator text without conversions. *)
Lemma pyformat_pair (a b : string) :
  pyformat "%s = %s" [a; b] = Ok (a +:+ " = " +:+ b) ∧
  pyformat "%s @> %s" [a; b] = Ok (a +:+ " @> " +:+ b) ∧
  pyformat "%s ?& %s" [a; b] = Ok (a +:+ " ?& " +:+ b) ∧
  pyformat "%s ? %s" [a; b] = Ok (a +:+ " ? " +:+ b).
Proof. cbn. rewrite !append_empty_r. done. Qed.

(** ['%s -> %%s' % lhs] appends the extraction operator and leaves one
    placeholder for the key. *)
Lemma pyformat_extract (lhs : string) :
  pyformat "%s -> %%s" [lhs] = Ok (lhs +:+ " -> %s").
Proof. reflexivity. Qed.

Lemma pyformat_cast (e : string) :
  pyformat "%s" [e] = Ok e ∧
  pyformat "(%s)::INTEGER" [e] = Ok ("(" +:+ e +:+ ")::INTEGER") ∧
  pyformat "(%s)::DATE" [e] = Ok ("(" +:+ e +:+ ")::DATE").
Proof. cbn. rewrite !append_empty_r. done. Qed.

(** ** Lookup resolution: [HStoreLookup.__init__] *)

Section Resolution.
Import HStoreLookup.
Context {QN Connection Annotation Field : Type}.
Variable get_lookup :
  FieldKind → list string →
  option (HStoreLookup.Lookup QN Connection Annotation Field).

Lemma is_top_level_false (key : string) :
  key ≠ "exact" → key ≠ "contains" → is_top_level key = false.
Proof.
  intros H1 H2. unfold is_top_level.
  apply String.eqb_neq in H1, H2. by rewrite H1, H2.
Qed.

Lemma is_type_convert_true (tok : string) :
  is_type_convert tok = true ↔ tok = "asint" ∨ tok = "asdate".
Proof.
  unfold is_type_convert. rewrite orb_true_iff, !String.eqb_eq. done.
Qed.

Lemma is_type_convert_false (tok : string) :
  is_type_convert tok = false ↔ tok ≠ "asint" ∧ tok ≠ "asdate".
Proof.
  unfold is_type_convert. rewrite orb_false_iff, !String.eqb_neq. done.
Qed.

Lemma finish_not_too_deep key kind c toks :
  finish get_lookup key kind c toks ≠ Raise (LookupError msg_too_deep).
Proof. unfold finish. destruct (get_lookup _ _); discriminate. Qed.

(** C7: for [exact] and [contains], a non-empty nested token list is
    refused with the "does not support nested lookups" LookupError, and
    the empty token list gives a lookup with no cast template, no field
    for the extracted value and no inner lookup. *)
Theorem C7_top_level_refuses_nesting (lookup_type : string) (toks : list string) :
  lookup_type = "exact" ∨ lookup_type = "contains" →
  (toks ≠ [] →
     __init__ get_lookup lookup_type (Some toks)
     = Raise (LookupError (msg_no_nesting lookup_type))) ∧
  __init__ get_lookup lookup_type (Some [])
  = Ok {| lookup_type := lookup_type; retval_field := None;
          nested_lookup := None; cast := None |}.
Proof.
  intros Hty. unfold __init__.
  assert (is_top_level lookup_type = true) as ->
    by (destruct Hty as [-> | ->]; reflexivity).
  split; [|reflexivity].
  destruct toks; [congruence | reflexivity].
Qed.

(** C2: on the keyed path the "nesting too deep" LookupError is raised
    exactly when there are more than two nested tokens, or exactly two
    and the first is neither [asint] nor [asdate]. *)
Theorem C2_nesting_too_deep_iff (key : string) (toks : list string) :
  key ≠ "exact" → key ≠ "contains" →
  __init__ get_lookup key (Some toks) = Raise (LookupError msg_too_deep)
  ↔ (2 < length toks)%nat
    ∨ (length toks = 2%nat
       ∧ ∃ first rest, toks = first :: rest
                       ∧ first ≠ "asint" ∧ first ≠ "asdate").
Proof.
  intros H1 H2. unfold __init__.
  rewrite (is_top_level_false key H1 H2).
  destruct (Nat.ltb_spec 2 (length toks)) as [Hlen|Hlen].
  { split; [intros _; by left | done]. }
  destruct toks as [|first rest].
  { split.
    - intros H. by apply finish_not_too_deep in H.
    - intros [H|[H _]]; simpl in H; lia. }
  destruct (is_type_convert first) eqn:Hconv.
  - split.
    + destruct (String.eqb first "asint"), (String.eqb first "asdate");
        intros H; by apply finish_not_too_deep in H.
    + intros [H|(_ & f & r & [= <- <-] & Hn1 & Hn2)]; [lia|].
      apply is_type_convert_true in Hconv. tauto.
  - apply is_type_convert_false in Hconv.
    destruct (Nat.eqb_spec (length (first :: rest)) 2) as [Heq|Hne].
    + split; [|done]. intros _. right. split; [done|]. by exists first, rest.
    + split.
      * intros H. by apply finish_not_too_deep in H.
      * intros [H|[H _]]; [lia | done].
Qed.

(** C4: a keyed lookup with the single nested token [asint] asks the
    registry for [exact] on an IntegerField; given that comparison it
    succeeds with the INTEGER cast template, IntegerField as the field
    of the extracted value and that comparison as inner lookup (and it
    fails with "Unknown nested lookup!" only if the registry has none). *)
Theorem C4_asint_defaults_to_exact (key : string) :
  key ≠ "exact" → key ≠ "contains" →
  __init__ get_lookup key (Some ["asint"])
  = match get_lookup IntegerField ["exact"] with
    | Some nl =>
        Ok {| lookup_type := key; retval_field := Some IntegerField;
              nested_lookup := Some nl; cast := Some "(%s)::INTEGER" |}
    | None => Raise (LookupError msg_unknown)
    end.
Proof.
  intros H1 H2. unfold __init__.
  by rewrite (is_top_level_false key H1 H2).
Qed.

End Resolution.

(** ** SQL rendering *)

Section Rendering.
Import HStoreLookup.
Context {QN Connection Annotation Field : Type}.
Variable get_lookup :
  FieldKind → list string →
  option (HStoreLookup.Lookup QN Connection Annotation Field).
Variable Lookup_common_normalize :
  HStoreLookup.t QN Connection Annotation Field → pyobj → Field → QN →
  Connection → result (string * pyobj).
Variable Lookup_prepare_lhs :
  HStoreLookup.t QN Connection Annotation Field → pyobj → QN → Connection →
  result (string * pyobj).
Variable Lookup_rhs_format :
  HStoreLookup.t QN Connection Annotation Field → Annotation → Connection →
  string → string.
Variable Lookup_as_sql :
  HStoreLookup.t QN Connection Annotation Field → QN → Connection → pyobj →
  result (string * pyobj).
Variable get_prep_lookup : Field → string → pyobj → result pyobj.
Variables (qn : QN) (connection : Connection) (value_annotation : Annotation).

(** What a keyed lookup looks like once [__init__] returned it. *)
Lemma init_keyed_inv key toks self :
  key ≠ "exact" → key ≠ "contains" →
  __init__ get_lookup key (Some toks) = Ok self →
  lookup_type self = key ∧ cast self = Some (cast_template toks) ∧
  ∃ nl, nested_lookup self = Some nl.
Proof.
  intros H1 H2. unfold __init__.
  rewrite (is_top_level_false key H1 H2).
  destruct (2 <? length toks)%nat; [discriminate|].
  assert (∀ kind c l, finish get_lookup key kind c l = Ok self →
            lookup_type self = key ∧ cast self = Some c
            ∧ ∃ nl, nested_lookup self = Some nl) as Hfin.
  { intros kind c l. unfold finish.
    destruct (get_lookup kind _) as [nl|]; [|discriminate].
    intros [= <-]. simpl. eauto. }
  destruct toks as [|first rest]; [apply Hfin|].
  unfold cast_template. destruct (is_type_convert first) eqn:Hconv.
  - destruct (String.eqb first "asint") eqn:Hint.
    + apply String.eqb_eq in Hint as ->. apply Hfin.
    + destruct (String.eqb first "asdate") eqn:Hdate; [apply Hfin|].
      unfold is_type_convert in Hconv. rewrite Hint, Hdate in Hconv. done.
  - apply is_type_convert_false in Hconv as [Hi Hd].
    apply String.eqb_neq in Hi, Hd. rewrite Hi, Hd.
    destruct (length (first :: rest) =? 2)%nat; [discriminate | apply Hfin].
Qed.

Lemma cast_template_format toks lhs :
  pyformat (cast_template toks) [lhs +:+ " -> %s"] = Ok (extract_expr toks lhs).
Proof.
  destruct (pyformat_cast (lhs +:+ " -> %s")) as (Hnone & Hint & Hdate).
  rewrite append_assoc in Hint, Hdate.
  unfold cast_template, extract_expr.
  destruct toks as [|first rest]; [exact Hnone|].
  destruct (String.eqb first "asint"); [exact Hint|].
  destruct (String.eqb first "asdate"); [exact Hdate | exact Hnone].
Qed.

(** The left-hand side of a keyed lookup whose own left-hand side has a
    list of parameters. *)
Lemma prepare_lhs_keyed self nl c lvalue lhs ps lhs_only :
  nested_lookup self = Some nl → cast self = Some c →
  Lookup_prepare_lhs self lvalue qn connection = Ok (lhs, VList ps) →
  prepare_lhs Lookup_prepare_lhs self lvalue qn connection lhs_only
  = (extract ← pyformat c [lhs +:+ " -> %s"];
     '(cl, inner) ← lk_prepare_lhs nl (VStr extract) qn connection lhs_only;
     items ← iter_items inner;
     Ok (cl, VList (VStr (lookup_type self) :: ps ++ items))).
Proof.
  intros Hnl Hc Hsuper. unfold prepare_lhs.
  rewrite Hsuper, bind_Ok, Hnl, Hc.
  change (attr (Some c)) with (Ok c). rewrite bind_Ok.
  rewrite pyformat_extract, bind_Ok.
  destruct (pyformat c _) as [extract|e]; [|reflexivity].
  rewrite !bind_Ok.
  change (insert0_or_tuple ?x (VList ps)) with (Ok (VList (x :: ps))).
  rewrite bind_Ok.
  destruct (lk_prepare_lhs nl _ _ _ _) as [[cl inner]|e]; [|reflexivity].
  rewrite !bind_Ok. unfold extend.
  destruct (iter_items inner) as [items|e]; reflexivity.
Qed.

(** A keyed left-hand side only comes out when the inherited
    [prepare_lhs] gave a list of parameters: a tuple survives the
    [insert] fallback but has no [extend]. *)
Lemma prepare_lhs_keyed_needs_list self nl lvalue lhs p lhs_only cl params :
  nested_lookup self = Some nl →
  Lookup_prepare_lhs self lvalue qn connection = Ok (lhs, p) →
  prepare_lhs Lookup_prepare_lhs self lvalue qn connection lhs_only
  = Ok (cl, params) →
  (∃ base, p = VList base) ∧ ∃ c, cast self = Some c.
Proof.
  intros Hnl Hsuper H. unfold prepare_lhs in H.
  rewrite Hsuper, bind_Ok, Hnl in H.
  destruct (cast self) as [c|]; [|discriminate].
  change (attr (Some c)) with (Ok c) in H.
  rewrite bind_Ok, pyformat_extract, bind_Ok in H.
  destruct (pyformat c _) as [extract|]; [|discriminate].
  rewrite bind_Ok in H.
  destruct p; try discriminate; [by eauto|].
  change (insert0_or_tuple ?x (VTuple l)) with (Ok (VTuple (x :: l))) in H.
  rewrite bind_Ok in H.
  destruct (lk_prepare_lhs nl _ _ _ _) as [[cl' inner]|]; discriminate.
Qed.

Lemma as_sql_keyed self nl c lvalue lhs ps :
  nested_lookup self = Some nl → cast self = Some c →
  Lookup_prepare_lhs self lvalue qn connection = Ok (lhs, VList ps) →
  as_sql Lookup_prepare_lhs Lookup_as_sql self qn connection lvalue
  = (extract ← pyformat c [lhs +:+ " -> %s"];
     '(cl, inner) ← lk_prepare_lhs nl (VStr extract) qn connection true;
     items ← iter_items inner;
     '(sql, inner') ← lk_as_sql nl qn connection (VStr cl);
     items' ← iter_items inner';
     Ok (sql, VList (VStr (lookup_type self) :: ps ++ items ++ items'))).
Proof.
  intros Hnl Hc Hsuper. unfold as_sql.
  rewrite (prepare_lhs_keyed self nl c lvalue lhs ps true Hnl Hc Hsuper).
  destruct (pyformat c _) as [extract|e]; [|reflexivity].
  rewrite !bind_Ok.
  destruct (lk_prepare_lhs nl _ _ _ _) as [[cl inner]|e]; [|reflexivity].
  rewrite !bind_Ok.
  destruct (iter_items inner) as [items|e]; [|reflexivity].
  rewrite !bind_Ok, Hnl.
  destruct (lk_as_sql nl _ _ _) as [[sql inner']|e]; [|reflexivity].
  rewrite !bind_Ok. unfold extend.
  destruct (iter_items inner') as [items'|e]; [|reflexivity].
  rewrite !bind_Ok. simpl app. by rewrite <- app_assoc.
Qed.

(** The constraint of a top-level [contains] on a sequence value: the
    emptiness test looks at the parameter list, which holds the value
    and so is never empty. *)
Lemma contains_sequence_renders self lhs_clause rhs_sql seq field :
  lookup_type self = "contains" → is_list_or_tuple seq = true →
  as_constraint_sql Lookup_rhs_format self qn connection lhs_clause
    value_annotation rhs_sql (VList [seq]) field
  = Ok (lhs_clause +:+ " ?& "
          +:+ Lookup_rhs_format self value_annotation connection rhs_sql,
        VList [seq]).
Proof.
  intros Hty Hseq. unfold as_constraint_sql. rewrite Hty.
  change (getitem0 (VList [seq])) with (Ok seq). rewrite bind_Ok.
  destruct seq; try discriminate; simpl is_dict; simpl is_list_or_tuple;
    simpl truthy; cbv iota;
    destruct (pyformat_pair lhs_clause
                (Lookup_rhs_format self value_annotation connection rhs_sql))
      as (_ & _ & -> & _); reflexivity.
Qed.

(** C6: the constraint of a top-level [exact] on the parameter list
    [[v]] fails, with ValueError, exactly when [v] is not a dict; for a
    dict it is [<lhs> = <placeholder>] with [[v]] as parameters. *)
Theorem C6_exact_requires_mapping self lhs_clause rhs_sql v field :
  lookup_type self = "exact" →
  let r := as_constraint_sql Lookup_rhs_format self qn connection lhs_clause
             value_annotation rhs_sql (VList [v]) field in
  (r = Raise (ValueError "Invalid value") ↔ is_dict v = false) ∧
  (succeeds r = false ↔ is_dict v = false) ∧
  (is_dict v = true →
     r = Ok (lhs_clause +:+ " = "
               +:+ Lookup_rhs_format self value_annotation connection rhs_sql,
             VList [v])).
Proof.
  intros Hty r. subst r. unfold as_constraint_sql. rewrite Hty.
  change (getitem0 (VList [v])) with (Ok v). rewrite bind_Ok.
  destruct (pyformat_pair lhs_clause
              (Lookup_rhs_format self value_annotation connection rhs_sql))
    as (Hfmt & _).
  destruct (is_dict v).
  - simpl String.eqb. cbv iota. rewrite Hfmt, bind_Ok. simpl.
    split_and!; [split; discriminate | done | done].
  - simpl. split_and!; [done | done | discriminate].
Qed.

(** C5: a keyed lookup renders its left-hand side as the cast template
    applied to [<lhs> -> %s] (no cast, [(...)::INTEGER] for [asint],
    [(...)::DATE] for [asdate]); the inner comparison is prepared and
    rendered against that expression, and the key is bound first. *)
Theorem C5_keyed_lhs_is_cast_of_extraction key toks self lvalue lhs ps lhs_only :
  key ≠ "exact" → key ≠ "contains" →
  __init__ get_lookup key (Some toks) = Ok self →
  Lookup_prepare_lhs self lvalue qn connection = Ok (lhs, VList ps) →
  ∃ nl,
    nested_lookup self = Some nl ∧
    cast self = Some (cast_template toks) ∧
    pyformat (cast_template toks) [lhs +:+ " -> %s"]
    = Ok (extract_expr toks lhs) ∧
    prepare_lhs Lookup_prepare_lhs self lvalue qn connection lhs_only
    = ('(cl, inner) ←
         lk_prepare_lhs nl (VStr (extract_expr toks lhs)) qn connection lhs_only;
       items ← iter_items inner;
       Ok (cl, VList (VStr key :: ps ++ items))) ∧
    as_sql Lookup_prepare_lhs Lookup_as_sql self qn connection lvalue
    = ('(cl, inner) ←
         lk_prepare_lhs nl (VStr (extract_expr toks lhs)) qn connection true;
       items ← iter_items inner;
       '(sql, inner') ← lk_as_sql nl qn connection (VStr cl);
       items' ← iter_items inner';
       Ok (sql, VList (VStr key :: ps ++ items ++ items'))).
Proof.
  intros H1 H2 Hinit Hsuper.
  destruct (init_keyed_inv key toks self H1 H2 Hinit) as (Hkey & Hcast & nl & Hnl).
  exists nl. split; [done|]. split; [done|].
  split; [apply cast_template_format|]. split.
  - rewrite (prepare_lhs_keyed self nl _ lvalue lhs ps lhs_only Hnl Hcast Hsuper).
    by rewrite cast_template_format, bind_Ok, Hkey.
  - rewrite (as_sql_keyed self nl _ lvalue lhs ps Hnl Hcast Hsuper).
    by rewrite cast_template_format, bind_Ok, Hkey.
Qed.

(** Where the parameters of a rendered lookup come from: a keyed lookup
    puts the hstore key in front of what the inherited [prepare_lhs]
    returned and appends the parameters of the inner comparison (those of
    its left-hand side, then those of its SQL); the constraint of a
    top-level [exact] or [contains] has one parameter, the value as the
    field prepared it. *)
Lemma rendered_parameters self lvalue sql params params0 field lhs_clause
    rhs_sql ps csql out :
  (∀ nl, nested_lookup self = Some nl →
     as_sql Lookup_prepare_lhs Lookup_as_sql self qn connection lvalue
     = Ok (sql, params) →
     ∃ lhs base extract cl inner inner' items items',
       Lookup_prepare_lhs self lvalue qn connection = Ok (lhs, VList base) ∧
       lk_prepare_lhs nl (VStr extract) qn connection true = Ok (cl, inner) ∧
       iter_items inner = Ok items ∧
       lk_as_sql nl qn connection (VStr cl) = Ok (sql, inner') ∧
       iter_items inner' = Ok items' ∧
       params = VList (VStr (lookup_type self) :: base ++ items ++ items')) ∧
  (nested_lookup self = None →
   lookup_type self = "exact" ∨ lookup_type self = "contains" →
   common_normalize Lookup_common_normalize get_prep_lookup self params0
     field qn connection = Ok (rhs_sql, ps) →
   as_constraint_sql Lookup_rhs_format self qn connection lhs_clause
     value_annotation rhs_sql ps field = Ok (csql, out) →
   ∃ rhs' ps' p0 v,
     Lookup_common_normalize self params0 field qn connection = Ok (rhs', ps') ∧
     getitem0 ps' = Ok p0 ∧
     get_prep_lookup field (lookup_type self) p0 = Ok v ∧
     out = VList [v]).
Proof.
  split.
  - intros nl Hnl H.
    destruct (Lookup_prepare_lhs self lvalue qn connection)
      as [[lhs p]|e] eqn:Hsuper.
    2: { unfold as_sql, prepare_lhs in H. rewrite Hsuper in H. discriminate. }
    destruct (prepare_lhs Lookup_prepare_lhs self lvalue qn connection true)
      as [[cl0 params1]|e] eqn:Hprep.
    2: { unfold as_sql in H. rewrite Hprep in H. discriminate. }
    destruct (prepare_lhs_keyed_needs_list _ _ _ _ _ _ _ _ Hnl Hsuper Hprep)
      as ([base ->] & c & Hc).
    rewrite (as_sql_keyed self nl c lvalue lhs base Hnl Hc Hsuper) in H.
    destruct (pyformat c _) as [extract|]; [|discriminate].
    rewrite bind_Ok in H.
    destruct (lk_prepare_lhs nl _ _ _ _) as [[cl inner]|] eqn:Hlhs; [|discriminate].
    rewrite bind_Ok in H.
    destruct (iter_items inner) as [items|] eqn:Hitems; [|discriminate].
    rewrite bind_Ok in H.
    destruct (lk_as_sql nl _ _ _) as [[sql' inner']|] eqn:Hsql; [|discriminate].
    rewrite bind_Ok in H.
    destruct (iter_items inner') as [items'|] eqn:Hitems'; [|discriminate].
    rewrite bind_Ok in H. injection H as <- <-.
    exists lhs, base, extract, cl, inner, inner', items, items'. done.
  - intros Hnl Hty Hnorm Hsql. unfold common_normalize in Hnorm.
    rewrite Hnl in Hnorm.
    destruct (Lookup_common_normalize self params0 field qn connection)
      as [[rhs' ps']|] eqn:Hsuper; [|discriminate].
    rewrite bind_Ok in Hnorm.
    destruct (getitem0 ps') as [p0|] eqn:Hp0; [|discriminate].
    rewrite bind_Ok in Hnorm.
    destruct (get_prep_lookup field (lookup_type self) p0) as [v|] eqn:Hv;
      [|discriminate].
    rewrite bind_Ok in Hnorm. injection Hnorm as <- <-.
    exists rhs', ps', p0, v. split; [done|]. split; [done|]. split; [done|].
    unfold as_constraint_sql in Hsql.
    change (getitem0 (VList [v])) with (Ok v) in Hsql.
    destruct Hty as [Hty|Hty]; rewrite Hty in Hsql; simpl String.eqb in Hsql;
      cbv iota in Hsql; rewrite bind_Ok in Hsql.
    + destruct (is_dict v); [|discriminate].
      destruct (pyformat _ _); [|discriminate].
      rewrite bind_Ok in Hsql. by injection Hsql as _ <-.
    + destruct (is_dict v).
      { destruct (pyformat _ _); [|discriminate].
        rewrite bind_Ok in Hsql. by injection Hsql as _ <-. }
      destruct (is_list_or_tuple v).
      { destruct (truthy _); [|discriminate].
        destruct (pyformat _ _); [|discriminate].
        rewrite bind_Ok in Hsql. by injection Hsql as _ <-. }
      destruct (is_basestring v); [|discriminate].
      destruct (pyformat _ _); [|discriminate].
      rewrite bind_Ok in Hsql. by injection Hsql as _ <-.
Qed.

(** C3: a keyed lookup that renders on a left-hand side without bound
    parameters of its own (a column) binds the hstore key first,
    followed by the parameters of the inner comparison in their own
    order, both after [prepare_lhs] and after [as_sql]; the constraint
    of a top-level [exact] or [contains] binds exactly one parameter,
    the value as the field prepared it. *)
Theorem C3_key_first_then_inner self lvalue lhs lhs_only cl0 params1 sql params
    params0 field lhs_clause rhs_sql ps csql out :
  (∀ nl, nested_lookup self = Some nl →
     Lookup_prepare_lhs self lvalue qn connection = Ok (lhs, VList []) →
     (prepare_lhs Lookup_prepare_lhs self lvalue qn connection lhs_only
      = Ok (cl0, params1) →
      ∃ extract inner items,
        lk_prepare_lhs nl (VStr extract) qn connection lhs_only = Ok (cl0, inner) ∧
        iter_items inner = Ok items ∧
        params1 = VList (VStr (lookup_type self) :: items)) ∧
     (as_sql Lookup_prepare_lhs Lookup_as_sql self qn connection lvalue
      = Ok (sql, params) →
      ∃ extract cl inner inner' items items',
        lk_prepare_lhs nl (VStr extract) qn connection true = Ok (cl, inner) ∧
        iter_items inner = Ok items ∧
        lk_as_sql nl qn connection (VStr cl) = Ok (sql, inner') ∧
        iter_items inner' = Ok items' ∧
        params = VList (VStr (lookup_type self) :: items ++ items'))) ∧
  (nested_lookup self = None →
   lookup_type self = "exact" ∨ lookup_type self = "contains" →
   common_normalize Lookup_common_normalize get_prep_lookup self params0
     field qn connection = Ok (rhs_sql, ps) →
   as_constraint_sql Lookup_rhs_format self qn connection lhs_clause
     value_annotation rhs_sql ps field = Ok (csql, out) →
   ∃ rhs' ps' p0 v,
     Lookup_common_normalize self params0 field qn connection = Ok (rhs', ps') ∧
     getitem0 ps' = Ok p0 ∧
     get_prep_lookup field (lookup_type self) p0 = Ok v ∧
     out = VList [v]).
Proof.
  split; [|apply (rendered_parameters self lvalue sql params)].
  intros nl Hnl Hsuper. split.
  - intros Hprep.
    destruct (prepare_lhs_keyed_needs_list _ _ _ _ _ _ _ _ Hnl Hsuper Hprep)
      as (_ & c & Hc).
    rewrite (prepare_lhs_keyed self nl c lvalue lhs [] lhs_only Hnl Hc Hsuper)
      in Hprep.
    destruct (pyformat c _) as [extract|]; [|discriminate].
    rewrite bind_Ok in Hprep.
    destruct (lk_prepare_lhs nl _ _ _ _) as [[cl inner]|] eqn:Hlhs; [|discriminate].
    rewrite bind_Ok in Hprep.
    destruct (iter_items inner) as [items|] eqn:Hitems; [|discriminate].
    rewrite bind_Ok in Hprep. injection Hprep as <- <-.
    by exists extract, inner, items.
  - intros Hsql.
    destruct (rendered_parameters self lvalue sql params params0 field
                lhs_clause rhs_sql ps csql out) as [Hkeyed _].
    destruct (Hkeyed nl Hnl Hsql)
      as (lhs' & base & extract & cl & inner & inner' & items & items'
          & Hsuper' & Hlhs & Hitems & Hinner & Hitems' & ->).
    rewrite Hsuper in Hsuper'. injection Hsuper' as _ <-.
    by exists extract, cl, inner, inner', items, items'.
Qed.

End Rendering.

(** ** Value preparation and conversion of the fields *)

Section Fields.
Import HStoreField.
Variable strftime_Ymd : date → result string.

(** The loop over the items, from any starting copy, when [strftime] has
    a text for every date: a key holding a date ends up with the text,
    any other key keeps what the copy had. *)
Lemma prep_loop_returns (init m : gmap string pyobj) :
  dates_format strftime_Ymd m →
  ∃ copy, map_fold (prep_item strftime_Ymd) (Ok init) m = Ok copy ∧
          ∀ k, copy !! k = match m !! k with
                           | Some (VDate d) =>
                               Some (date_to_text strftime_Ymd (VDate d))
                           | _ => init !! k
                           end.
Proof.
  apply (map_fold_weak_ind
           (λ r m, dates_format strftime_Ymd m →
                   ∃ copy, r = Ok copy ∧
                           ∀ k, copy !! k
                                = match m !! k with
                                  | Some (VDate d) =>
                                      Some (date_to_text strftime_Ymd (VDate d))
                                  | _ => init !! k
                                  end)).
  - intros _. exists init. split; [done|]. intros k. by rewrite lookup_empty.
  - intros i x m' r Hfresh IH Hfmt.
    destruct IH as (copy & -> & Hcopy).
    { intros k dt Hk. apply (Hfmt k dt).
      rewrite lookup_insert_ne; [done|]. intros ->. congruence. }
    assert (∀ k, i ≠ k → copy !! k
                         = match <[i:=x]> m' !! k with
                           | Some (VDate d) =>
                               Some (date_to_text strftime_Ymd (VDate d))
                           | _ => init !! k
                           end) as Hother.
    { intros k Hne. rewrite (lookup_insert_ne m') by done. apply Hcopy. }
    assert (copy !! i = init !! i) as Hi.
    { rewrite Hcopy, Hfresh. done. }
    unfold prep_item. rewrite bind_Ok.
    destruct x as [| | | |dt| | |];
      try (exists copy; split; [reflexivity|]; intros k;
           destruct (decide (i = k)) as [<-|Hne];
           [by rewrite lookup_insert_eq | by apply Hother]).
    pose proof (Hfmt i dt (lookup_insert_eq m' i (VDate dt))) as Hdt.
    destruct (strftime_Ymd dt) as [text|] eqn:Htext; [|discriminate].
    rewrite bind_Ok. eexists. split; [reflexivity|]. intros k.
    destruct (decide (i = k)) as [<-|Hne].
    + rewrite !lookup_insert_eq. simpl. by rewrite Htext.
    + rewrite lookup_insert_ne by done. by apply Hother.
Qed.


Lemma get_prep_value_dict (d : gmap string pyobj) :
  dates_format strftime_Ymd d →
  get_prep_value strftime_Ymd (VDict d)
  = Ok (VDict (date_to_text strftime_Ymd <$> d)).
Proof.
  intros Hfmt. unfold get_prep_value.
  destruct (prep_loop_returns d d Hfmt) as (copy & -> & Hcopy).
  rewrite bind_Ok. do 2 f_equal. apply map_eq. intros k.
  rewrite Hcopy, lookup_fmap.
  destruct (d !! k) as [[]|]; reflexivity.
Qed.


(** C10: [DictionaryField.to_python] gives the empty mapping for every
    falsy value, [None] among them, and a truthy value unchanged; it
    never gives [None]. *)
Theorem C10_to_python_never_none (value : pyobj) :
  (truthy value = false → DictionaryField.to_python value = VDict ∅) ∧
  (truthy value = true → DictionaryField.to_python value = value) ∧
  DictionaryField.to_python VNone = VDict ∅ ∧
  DictionaryField.to_python value ≠ VNone.
Proof.
  unfold DictionaryField.to_python. split_and!.
  - by intros ->.
  - by intros ->.
  - reflexivity.
  - destruct value; simpl; try discriminate;
      repeat match goal with |- context [if ?b then _ else _] => destruct b end;
      discriminate.
Qed.

End Fields.

Section References.
Import util ReferencesField.

Lemma identify_instance_nonempty (e : Entity) :
  String.eqb (identify_instance e) EmptyString = false.
Proof. unfold identify_instance. destruct (table e); reflexivity. Qed.

(** Reading the reference stored for one value of the mapping. *)
Lemma read_serialized fetch (o : option Entity) :
  read_entity fetch
    {| reference := match o with
                    | Some e => identify_instance e
                    | None => EmptyString
                    end;
       resolved := None |}
  = o ≫= λ e, acquire_reference fetch (identify_instance e).
Proof.
  unfold read_entity, read, _value_to_python. destruct o as [e|]; simpl.
  - by rewrite identify_instance_nonempty.
  - reflexivity.
Qed.

Lemma to_python_get_prep_value (x : gmap string (option Entity)) :
  to_python (Some (get_prep_value (Some x)))
  = unserialize_references (serialize_references x).
Proof.
  unfold to_python, get_prep_value.
  destruct (Nat.eqb_spec (size x) 0) as [Hsize|Hsize]; simpl.
  - apply map_size_empty_inv in Hsize as ->.
    unfold unserialize_references, serialize_references.
    by rewrite !fmap_empty.
  - unfold serialize_references at 1. rewrite map_size_fmap.
    destruct (Nat.eqb_spec (size x) 0); [done | reflexivity].
Qed.

(** C9: when every entity of the mapping has a stable identifier (its
    identifier resolves back to it), reading the references
    deserialized from the serialized mapping gives the mapping back, and
    nothing was resolved before the read; an identifier that does not
    resolve in a store reads as [None]. *)
Theorem C9_references_round_trip
    (fetch fetch' : string → string → option Entity)
    (x : gmap string (option Entity)) :
  (∀ k e, x !! k = Some (Some e) →
          acquire_reference fetch (identify_instance e) = Some e) →
  read_entity fetch <$> to_python (Some (get_prep_value (Some x))) = x ∧
  (∀ k r, to_python (Some (get_prep_value (Some x))) !! k = Some r →
          resolved r = None) ∧
  (∀ k e, x !! k = Some (Some e) →
          acquire_reference fetch' (identify_instance e) = None →
          read_entity fetch' <$> to_python (Some (get_prep_value (Some x))) !! k
          = Some None).
Proof.
  intros Hstable. rewrite to_python_get_prep_value.
  unfold unserialize_references, serialize_references. split_and!.
  - apply map_eq. intros k. rewrite !lookup_fmap.
    destruct (x !! k) as [o|] eqn:Hk; simpl; [|done].
    f_equal. etrans; [apply read_serialized|].
    destruct o as [e|]; simpl; [|done]. by rewrite (Hstable k e Hk).
  - intros k r. rewrite !lookup_fmap.
    destruct (x !! k); simpl; [|done]. by intros [= <-].
  - intros k e Hk Hgone. rewrite !lookup_fmap, Hk. simpl.
    f_equal. etrans; [apply (read_serialized fetch' (Some e))|]. exact Hgone.
Qed.

End References.

(** ** The definitions at work on concrete lookups *)

Section Examples.
Import HStoreLookup.

Example resolve_asdate_gt :
  __init__ (Sample.get_lookup VNone) "mykey" (Some ["asdate"; "gt"])
  = Ok {| lookup_type := "mykey"; retval_field := Some DateField;
          nested_lookup := Some (Sample.comparison ">" VNone);
          cast := Some "(%s)::DATE" |}.
Proof. reflexivity. Qed.

Example field_get_lookup_splits_the_path :
  HStoreField.get_lookup (Sample.get_lookup (VInt 5)) ["mykey"; "asint"]
  = Ok Sample.mykey_asint.
Proof. reflexivity. Qed.

Example resolve_three_tokens :
  __init__ (Sample.get_lookup VNone) "mykey" (Some ["asint"; "gt"; "extra"])
  = Raise (LookupError msg_too_deep).
Proof. reflexivity. Qed.

Example resolve_without_token_list :
  __init__ (Sample.get_lookup VNone) "mykey" None = Raise TypeError.
Proof. reflexivity. Qed.

Example contains_integer_refused :
  as_constraint_sql Sample.Lookup_rhs_format (Sample.top_level "contains")
    tt tt "col" tt "%s" (VList [VInt 42]) tt
  = Raise (ValueError "invalid value").
Proof. reflexivity. Qed.

Example keyed_tuple_parameters_raise :
  as_sql Sample.Lookup_prepare_lhs Sample.Lookup_as_sql Sample.mykey_asint
    tt tt (VTuple [VStr "coalesce(col, %s)"; VTuple [VStr "a=>0"]])
  = Raise AttributeError.
Proof. reflexivity. Qed.

(** C1: the constraint of a top-level [contains] on the empty list is
    rendered as [col ?& %s] with the empty list as parameter; it is not
    refused with ValueError, because the emptiness test reads the
    parameter list [[[]]] and not the value. *)
Theorem C1_empty_sequence_is_rendered :
  __init__ (Sample.get_lookup VNone) "contains" (Some [])
  = Ok (Sample.top_level "contains") ∧
  common_normalize Sample.Lookup_common_normalize Sample.get_prep_lookup
    (Sample.top_level "contains") (VList [VList []]) tt tt tt
  = Ok ("%s", VList [VList []]) ∧
  as_constraint_sql Sample.Lookup_rhs_format (Sample.top_level "contains")
    tt tt "col" tt "%s" (VList [VList []]) tt
  = Ok ("col ?& %s", VList [VList []]) ∧
  as_constraint_sql Sample.Lookup_rhs_format (Sample.top_level "contains")
    tt tt "col" tt "%s" (VList [VList [VStr "a"; VStr "b"]]) tt
  = Ok ("col ?& %s", VList [VList [VStr "a"; VStr "b"]]).
Proof. split_and!; reflexivity. Qed.

Lemma C2_two_plain_tokens_too_deep :
  __init__ (Sample.get_lookup VNone) "mykey" (Some ["foo"; "bar"])
  = Raise (LookupError msg_too_deep).
Proof.
  apply (C2_nesting_too_deep_iff (Sample.get_lookup VNone) "mykey" ["foo"; "bar"]);
    [discriminate | discriminate |].
  right. split; [reflexivity|]. exists "foo", ["bar"].
  split; [reflexivity|]. split; discriminate.
Defined.

Lemma C4_mykey_asint :
  __init__ (Sample.get_lookup (VInt 5)) "mykey" (Some ["asint"])
  = Ok Sample.mykey_asint.
Proof.
  apply (C4_asint_defaults_to_exact (Sample.get_lookup (VInt 5)) "mykey");
    discriminate.
Defined.

Lemma C7_contains_asint_refused :
  __init__ (Sample.get_lookup VNone) "contains" (Some ["asint"])
  = Raise (LookupError (msg_no_nesting "contains")) ∧
  __init__ (Sample.get_lookup VNone) "contains" (Some [])
  = Ok (Sample.top_level "contains").
Proof.
  destruct (C7_top_level_refuses_nesting (Sample.get_lookup VNone)
              "contains" ["asint"] (or_intror eq_refl)) as [Hnest Hempty].
  split; [apply Hnest; discriminate | exact Hempty].
Defined.

Lemma C6_exact_on_col :
  as_constraint_sql Sample.Lookup_rhs_format (Sample.top_level "exact")
    tt tt "col" tt "%s" (VList [VDict {["a" := VStr "1"]}]) tt
  = Ok ("col = %s", VList [VDict {["a" := VStr "1"]}]) ∧
  as_constraint_sql Sample.Lookup_rhs_format (Sample.top_level "exact")
    tt tt "col" tt "%s" (VList [VInt 42]) tt
  = Raise (ValueError "Invalid value").
Proof.
  split.
  - apply (C6_exact_requires_mapping Sample.Lookup_rhs_format tt tt tt
             (Sample.top_level "exact") "col" "%s"
             (VDict {["a" := VStr "1"]}) tt eq_refl).
    reflexivity.
  - apply (C6_exact_requires_mapping Sample.Lookup_rhs_format tt tt tt
             (Sample.top_level "exact") "col" "%s" (VInt 42) tt eq_refl).
    reflexivity.
Defined.

Lemma C5_mykey_asint_on_col :
  as_sql Sample.Lookup_prepare_lhs Sample.Lookup_as_sql Sample.mykey_asint
    tt tt Sample.col
  = Ok ("(col -> %s)::INTEGER = %s", VList [VStr "mykey"; VInt 5]).
Proof.
  destruct (C5_keyed_lhs_is_cast_of_extraction (Sample.get_lookup (VInt 5))
              Sample.Lookup_prepare_lhs Sample.Lookup_as_sql tt tt
              "mykey" ["asint"] Sample.mykey_asint Sample.col "col" [] true)
    as (nl & Hnl & _ & _ & _ & Hsql);
    [discriminate | discriminate | reflexivity | reflexivity |].
  rewrite Hsql. injection Hnl as <-. reflexivity.
Defined.

(** On an expression with a parameter of its own the key is still put
    first, in front of that parameter. *)
Example lhs_parameters_follow_the_key :
  as_sql Sample.Lookup_prepare_lhs Sample.Lookup_as_sql Sample.mykey_asint
    tt tt Sample.coalesce_col
  = Ok ("(coalesce(col, %s) -> %s)::INTEGER = %s",
        VList [VStr "mykey"; VStr "a=>0"; VInt 5]).
Proof. reflexivity. Qed.

Lemma C3_mykey_asint_parameters :
  (∃ extract inner items,
     lk_prepare_lhs (Sample.comparison "=" (VInt 5)) (VStr extract) tt tt false
     = Ok ("(col -> %s)::INTEGER", inner) ∧
     iter_items inner = Ok items ∧
     VList [VStr "mykey"] = VList (VStr "mykey" :: items)) ∧
  (∃ extract cl inner inner' items items',
     lk_prepare_lhs (Sample.comparison "=" (VInt 5)) (VStr extract) tt tt true
     = Ok (cl, inner) ∧
     iter_items inner = Ok items ∧
     lk_as_sql (Sample.comparison "=" (VInt 5)) tt tt (VStr cl)
     = Ok ("(col -> %s)::INTEGER = %s", inner') ∧
     iter_items inner' = Ok items' ∧
     VList [VStr "mykey"; VInt 5] = VList (VStr "mykey" :: items ++ items')) ∧
  (∃ rhs' ps' p0 v,
     Sample.Lookup_common_normalize (Sample.top_level "contains")
       (VList [VList [VStr "a"; VStr "b"]]) tt tt tt = Ok (rhs', ps') ∧
     getitem0 ps' = Ok p0 ∧
     Sample.get_prep_lookup tt "contains" p0 = Ok v ∧
     VList [VList [VStr "a"; VStr "b"]] = VList [v]).
Proof.
  destruct (C3_key_first_then_inner Sample.Lookup_common_normalize
              Sample.Lookup_prepare_lhs Sample.Lookup_rhs_format
              Sample.Lookup_as_sql Sample.get_prep_lookup tt tt tt
              Sample.mykey_asint Sample.col "col" false
              "(col -> %s)::INTEGER" (VList [VStr "mykey"])
              "(col -> %s)::INTEGER = %s" (VList [VStr "mykey"; VInt 5])
              VNone tt "" "" VNone "" VNone) as [Hkeyed _].
  destruct (Hkeyed (Sample.comparison "=" (VInt 5)) eq_refl eq_refl)
    as [Hlhs Hsql].
  destruct (C3_key_first_then_inner Sample.Lookup_common_normalize
              Sample.Lookup_prepare_lhs Sample.Lookup_rhs_format
              Sample.Lookup_as_sql Sample.get_prep_lookup tt tt tt
              (Sample.top_level "contains") Sample.col "col" false "" VNone
              "" VNone (VList [VList [VStr "a"; VStr "b"]]) tt "col" "%s"
              (VList [VList [VStr "a"; VStr "b"]]) "col ?& %s"
              (VList [VList [VStr "a"; VStr "b"]])) as [_ Htop].
  split; [apply Hlhs; reflexivity|].
  split; [apply Hsql; reflexivity|].
  apply Htop; [reflexivity | right; reflexivity | reflexivity | reflexivity].
Defined.

Example prepare_a_date :
  HStoreField.get_prep_value Sample.strftime_Ymd
    (VDict {["born" := VDate (Date 1969 7 20)]})
  = Ok (VDict {["born" := VStr "1969-07-20"]}).
Proof.
  rewrite get_prep_value_dict.
  - by rewrite map_fmap_singleton.
  - intros k dt [_ [= <-]]%lookup_singleton_Some. reflexivity.
Qed.

Example prepare_a_date_before_1900 :
  HStoreField.get_prep_value Sample.strftime_Ymd
    (VDict {["born" := VDate (Date 1815 12 10)]})
  = Raise (ValueError "year is before 1900").
Proof.
  unfold HStoreField.get_prep_value. by rewrite map_fold_singleton.
Qed.



Lemma C10_null_column_and_dict :
  DictionaryField.to_python VNone = VDict ∅ ∧
  DictionaryField.to_python (VList [VStr "a"]) = VList [VStr "a"] ∧
  DictionaryField.to_python (VStr "") ≠ VNone.
Proof.
  destruct (C10_to_python_never_none VNone) as (Hfalsy & _ & _ & _).
  destruct (C10_to_python_never_none (VList [VStr "a"])) as (_ & Htruthy & _ & _).
  destruct (C10_to_python_never_none (VStr "")) as (_ & _ & _ & Hnone).
  split; [apply Hfalsy; reflexivity|].
  split; [apply Htruthy; reflexivity | exact Hnone].
Defined.

Lemma C9_author_round_trip :
  let x : gmap string (option util.Entity) :=
    {[ "a" := Some Sample.author; "b" := None ]} in
  read_entity Sample.fetchByIdentifier
    <$> ReferencesField.to_python (Some (ReferencesField.get_prep_value (Some x)))
  = x ∧
  read_entity Sample.fetch_deleted
    <$> ReferencesField.to_python (Some (ReferencesField.get_prep_value (Some x)))
        !! "a"
  = Some None.
Proof.
  intros x.
  destruct (C9_references_round_trip Sample.fetchByIdentifier
              Sample.fetch_deleted x) as (Hback & _ & Hgone).
  - intros k e Hk. unfold x in Hk.
    apply lookup_insert_Some in Hk as [[_ [= <-]]|[_ Hk]]; [reflexivity|].
    apply lookup_singleton_Some in Hk as [_ [=]].
  - split; [exact Hback|]. apply (Hgone "a" Sample.author); reflexivity.
Defined.

End Examples.


(** * Further properties of the module *)

(** ** Resolution of lookup paths *)

Section ResolutionTable.
Import HStoreLookup.
Context {QN Connection Annotation Field : Type}.
Variable get_lookup :
  FieldKind → list string →
  option (HStoreLookup.Lookup QN Connection Annotation Field).

Lemma finish_raises key kind c toks e :
  finish get_lookup key kind c toks = Raise e → e = LookupError msg_unknown.
Proof.
  unfold finish. destruct (get_lookup _ _); [discriminate|]. by intros [= <-].
Qed.

Lemma finish_returns key kind c toks self :
  finish get_lookup key kind c toks = Ok self →
  ∃ nl, get_lookup kind (or_exact toks) = Some nl ∧
        self = {| lookup_type := key; retval_field := Some kind;
                  nested_lookup := Some nl; cast := Some c |}.
Proof.
  unfold finish. destruct (get_lookup _ _) as [nl|]; [|discriminate].
  intros [= <-]. by exists nl.
Qed.

Lemma asint_is_not_asdate (tok : string) :
  String.eqb tok "asint" = true → String.eqb tok "asdate" = false.
Proof. intros ->%String.eqb_eq. reflexivity. Qed.

(** X1: the whole keyed path of [__init__] as a table: too deep, or one
    question to the registry (the kind of field the cast token selects,
    a single comparison name) whose answer becomes the inner lookup. *)
Theorem keyed_resolution_table (key : string) (toks : list string) :
  key ≠ "exact" → key ≠ "contains" →
  __init__ get_lookup key (Some toks)
  = if nesting_too_deep toks then Raise (LookupError msg_too_deep)
    else match get_lookup (retval_kind toks) [comparison_name toks] with
         | Some nl =>
             Ok {| lookup_type := key; retval_field := Some (retval_kind toks);
                   nested_lookup := Some nl; cast := Some (cast_template toks) |}
         | None => Raise (LookupError msg_unknown)
         end.
Proof.
  intros H1 H2. unfold __init__. rewrite (is_top_level_false key H1 H2).
  unfold nesting_too_deep, retval_kind, comparison_name, cast_template, finish.
  destruct toks as [|a [|b [|c r]]]; simpl; [reflexivity| | |reflexivity];
    unfold is_type_convert;
    destruct (String.eqb a "asint") eqn:Hint;
    [rewrite (asint_is_not_asdate a Hint)| |
     rewrite (asint_is_not_asdate a Hint)|];
    simpl; try reflexivity;
    destruct (String.eqb a "asdate"); reflexivity.
Qed.

(** X2: with a token list, [__init__] fails only with one of its three
    LookupErrors; without one (the default of the constructor) it fails
    exactly on the keyed path, with TypeError. *)
Theorem resolution_failures (lookup_type : string)
    (nested_lookups : option (list string)) (e : exception) :
  __init__ get_lookup lookup_type nested_lookups = Raise e →
  match nested_lookups with
  | Some _ =>
      e = LookupError (msg_no_nesting lookup_type)
      ∨ e = LookupError msg_too_deep ∨ e = LookupError msg_unknown
  | None => e = TypeError ∧ is_top_level lookup_type = false
  end.
Proof.
  unfold __init__. destruct (is_top_level lookup_type).
  - destruct nested_lookups as [[|a r]|]; [discriminate| |discriminate].
    intros [= <-]. by left.
  - destruct nested_lookups as [toks|]; [|by intros [= <-]].
    destruct (2 <? length toks)%nat; [intros [= <-]; by right; left|].
    destruct toks as [|a r]; [intros ->%finish_raises; by right; right|].
    destruct (is_type_convert a).
    + destruct (String.eqb a "asint"), (String.eqb a "asdate");
        intros ->%finish_raises; by right; right.
    + destruct (length (a :: r) =? 2)%nat; [intros [= <-]; by right; left|].
      intros ->%finish_raises. by right; right.
Qed.

(** X3: what [__init__] returns is well formed: a top-level lookup has
    neither cast, field kind nor inner lookup; a keyed lookup has all
    three, the cast template is the one of its field kind, and the inner
    lookup is what the registry gave for that kind and one name. *)
Theorem resolved_lookup_is_well_formed (lookup_type : string)
    (nested_lookups : option (list string))
    (self : HStoreLookup.t QN Connection Annotation Field) :
  __init__ get_lookup lookup_type nested_lookups = Ok self →
  HStoreLookup.lookup_type self = lookup_type ∧
  if is_top_level lookup_type then
    retval_field self = None ∧ nested_lookup self = None ∧ cast self = None
  else
    ∃ kind nl name,
      retval_field self = Some kind ∧ nested_lookup self = Some nl ∧
      get_lookup kind [name] = Some nl ∧
      cast self = Some match kind with
                       | CharField => "%s"
                       | IntegerField => "(%s)::INTEGER"
                       | DateField => "(%s)::DATE"
                       end.
Proof.
  unfold __init__. destruct (is_top_level lookup_type).
  - destruct nested_lookups as [[|a r]|]; [|discriminate|];
      intros [= <-]; done.
  - destruct nested_lookups as [toks|]; [|discriminate].
    destruct (2 <? length toks)%nat eqn:Hlen; [discriminate|].
    assert (∀ kind c l name, or_exact l = [name] →
              c = match kind with
                  | CharField => "%s"
                  | IntegerField => "(%s)::INTEGER"
                  | DateField => "(%s)::DATE"
                  end →
              finish get_lookup lookup_type kind c l = Ok self →
              HStoreLookup.lookup_type self = lookup_type ∧
              ∃ kind nl name,
                retval_field self = Some kind ∧ nested_lookup self = Some nl ∧
                get_lookup kind [name] = Some nl ∧
                cast self = Some match kind with
                                 | CharField => "%s"
                                 | IntegerField => "(%s)::INTEGER"
                                 | DateField => "(%s)::DATE"
                                 end) as Hfin.
    { intros kind c l name Hl -> (nl & Hnl & ->)%finish_returns.
      rewrite Hl in Hnl. split; [done|]. by exists kind, nl, name. }
    destruct toks as [|a [|b [|c r]]]; [| | |discriminate].
    + by apply (Hfin CharField _ [] "exact").
    + simpl. destruct (is_type_convert a).
      * destruct (String.eqb a "asint"), (String.eqb a "asdate");
          by eapply Hfin.
      * by apply (Hfin CharField _ [a] a).
    + simpl. destruct (is_type_convert a); [|discriminate].
      destruct (String.eqb a "asint"), (String.eqb a "asdate");
        by eapply Hfin.
Qed.

(** X4: [HStoreField.get_lookup] on a path: the empty path raises
    IndexError, and every path of four or more names is refused with a
    LookupError, whatever the registry knows. *)
Theorem long_paths_are_refused (lookup_names : list string) :
  HStoreField.get_lookup get_lookup [] = Raise IndexError ∧
  ((4 ≤ length lookup_names)%nat →
   ∃ msg, HStoreField.get_lookup get_lookup lookup_names
          = Raise (LookupError msg)).
Proof.
  split; [reflexivity|]. intros Hlen.
  destruct lookup_names as [|first [|a [|b [|c r]]]]; simpl in Hlen; try lia.
  unfold HStoreField.get_lookup, __init__.
  destruct (is_top_level first); eauto.
Qed.

End ResolutionTable.

(** ** Rendering of constraints and left-hand sides *)

Section RenderingMore.
Import HStoreLookup.
Context {QN Connection Annotation Field : Type}.
Variable get_lookup :
  FieldKind → list string →
  option (HStoreLookup.Lookup QN Connection Annotation Field).
Variable Lookup_common_normalize :
  HStoreLookup.t QN Connection Annotation Field → pyobj → Field → QN →
  Connection → result (string * pyobj).
Variable Lookup_prepare_lhs :
  HStoreLookup.t QN Connection Annotation Field → pyobj → QN → Connection →
  result (string * pyobj).
Variable Lookup_rhs_format :
  HStoreLookup.t QN Connection Annotation Field → Annotation → Connection →
  string → string.
Variable Lookup_as_sql :
  HStoreLookup.t QN Connection Annotation Field → QN → Connection → pyobj →
  result (string * pyobj).
Variable get_prep_lookup : Field → string → pyobj → result pyobj.
Variables (qn : QN) (connection : Connection) (value_annotation : Annotation).

(** What a keyed lookup looks like once [__init__] returned it, field
    kind included. *)
Lemma init_keyed_fields key toks self :
  key ≠ "exact" → key ≠ "contains" →
  __init__ get_lookup key (Some toks) = Ok self →
  ∃ nl, self = {| lookup_type := key; retval_field := Some (retval_kind toks);
                  nested_lookup := Some nl;
                  cast := Some (cast_template toks) |}.
Proof.
  intros H1 H2 Hinit.
  assert (__init__ get_lookup key (Some toks)
          = if nesting_too_deep toks then Raise (LookupError msg_too_deep)
            else match get_lookup (retval_kind toks) [comparison_name toks] with
                 | Some nl =>
                     Ok {| lookup_type := key;
                           retval_field := Some (retval_kind toks);
                           nested_lookup := Some nl;
                           cast := Some (cast_template toks) |}
                 | None => Raise (LookupError msg_unknown)
                 end) as Htable.
  { unfold __init__. rewrite (is_top_level_false key H1 H2).
    unfold nesting_too_deep, retval_kind, comparison_name, cast_template, finish.
    destruct toks as [|a [|b [|c r]]]; simpl; [reflexivity| | |reflexivity];
      unfold is_type_convert;
      destruct (String.eqb a "asint") eqn:Hint;
      [rewrite (asint_is_not_asdate a Hint)| |
       rewrite (asint_is_not_asdate a Hint)|];
      simpl; try reflexivity;
      destruct (String.eqb a "asdate"); reflexivity. }
  rewrite Htable in Hinit.
  destruct (nesting_too_deep toks); [discriminate|].
  destruct (get_lookup _ _) as [nl|]; [|discriminate].
  injection Hinit as <-. by exists nl.
Qed.

(** X5: the constraint of a top-level [contains] is chosen by the shape
    of the value alone: [@>] for a dict, [?&] for a list or tuple, [?]
    for a string, and ValueError for anything else; the parameters come
    back as they went in. *)
Theorem contains_dispatch_on_shape self lhs_clause rhs_sql v field :
  lookup_type self = "contains" →
  as_constraint_sql Lookup_rhs_format self qn connection lhs_clause
    value_annotation rhs_sql (VList [v]) field
  = match v with
    | VDict _ =>
        Ok (lhs_clause +:+ " @> "
              +:+ Lookup_rhs_format self value_annotation connection rhs_sql,
            VList [v])
    | VList _ | VTuple _ =>
        Ok (lhs_clause +:+ " ?& "
              +:+ Lookup_rhs_format self value_annotation connection rhs_sql,
            VList [v])
    | VStr _ =>
        Ok (lhs_clause +:+ " ? "
              +:+ Lookup_rhs_format self value_annotation connection rhs_sql,
            VList [v])
    | _ => Raise (ValueError "invalid value")
    end.
Proof.
  intros Hty. unfold as_constraint_sql. rewrite Hty.
  change (getitem0 (VList [v])) with (Ok v). rewrite bind_Ok.
  destruct (pyformat_pair lhs_clause
              (Lookup_rhs_format self value_annotation connection rhs_sql))
    as (_ & Hsup & Hall & Hkey).
  destruct v;
    cbn [is_dict is_list_or_tuple is_basestring truthy length Nat.eqb negb
         String.eqb Ascii.eqb Bool.eqb];
    rewrite ?Hsup, ?Hall, ?Hkey; reflexivity.
Qed.

(** X6: a keyed lookup that [__init__] built puts no condition of its own
    on the value: its constraint is the inner comparison's, called with
    the same clause, parameters and field. *)
Theorem keyed_constraint_is_delegated key toks self lhs_clause rhs_sql params field :
  key ≠ "exact" → key ≠ "contains" →
  __init__ get_lookup key (Some toks) = Ok self →
  ∃ nl, nested_lookup self = Some nl ∧
        as_constraint_sql Lookup_rhs_format self qn connection lhs_clause
          value_annotation rhs_sql params field
        = lk_as_constraint_sql nl qn connection lhs_clause value_annotation
            rhs_sql params field.
Proof.
  intros H1 H2 Hinit.
  destruct (init_keyed_fields key toks self H1 H2 Hinit) as [nl ->].
  exists nl. split; [reflexivity|]. unfold as_constraint_sql. simpl.
  apply String.eqb_neq in H1, H2. by rewrite H1, H2.
Qed.

(** X7: a keyed lookup normalises the value through the inner comparison
    and the field kind of its cast (IntegerField for [asint], DateField
    for [asdate], CharField otherwise); the hstore field and its
    [get_prep_lookup] play no part. *)
Theorem keyed_normalize_uses_retval_field key toks self params field :
  key ≠ "exact" → key ≠ "contains" →
  __init__ get_lookup key (Some toks) = Ok self →
  ∃ nl, nested_lookup self = Some nl ∧
        common_normalize Lookup_common_normalize get_prep_lookup self params
          field qn connection
        = lk_common_normalize nl params (Some (retval_kind toks)) qn connection.
Proof.
  intros H1 H2 Hinit.
  destruct (init_keyed_fields key toks self H1 H2 Hinit) as [nl ->].
  exists nl. split; reflexivity.
Qed.

(** X8: when the inherited [prepare_lhs] gives its parameters as a tuple,
    a keyed lookup never renders: the [insert] fallback builds a tuple
    and [extend] then fails on it (or an earlier step failed). *)
Theorem keyed_lhs_refuses_tuple_parameters self nl lvalue lhs ps lhs_only :
  nested_lookup self = Some nl →
  Lookup_prepare_lhs self lvalue qn connection = Ok (lhs, VTuple ps) →
  succeeds (prepare_lhs Lookup_prepare_lhs self lvalue qn connection lhs_only)
  = false ∧
  succeeds (as_sql Lookup_prepare_lhs Lookup_as_sql self qn connection lvalue)
  = false ∧
  ∀ c extract cl inner,
    cast self = Some c → pyformat c [lhs +:+ " -> %s"] = Ok extract →
    lk_prepare_lhs nl (VStr extract) qn connection lhs_only = Ok (cl, inner) →
    prepare_lhs Lookup_prepare_lhs self lvalue qn connection lhs_only
    = Raise AttributeError.
Proof.
  intros Hnl Hsuper.
  assert (∀ lo, succeeds (prepare_lhs Lookup_prepare_lhs self lvalue qn
                            connection lo) = false) as Hfail.
  { intros lo.
    destruct (prepare_lhs Lookup_prepare_lhs self lvalue qn connection lo)
      as [[cl params]|e] eqn:Hprep; [|reflexivity].
    destruct (prepare_lhs_keyed_needs_list Lookup_prepare_lhs qn connection
                self nl lvalue lhs (VTuple ps) lo cl params Hnl Hsuper Hprep)
      as [[base Hbase] _].
    discriminate. }
  split; [apply Hfail|]. split.
  - unfold as_sql. specialize (Hfail true).
    destruct (prepare_lhs _ _ _ _ _ _); [discriminate | reflexivity].
  - intros c extract cl inner Hc Hfmt Hinner. unfold prepare_lhs.
    rewrite Hsuper, bind_Ok, Hnl, Hc.
    change (attr (Some c)) with (Ok c).
    rewrite bind_Ok, pyformat_extract, bind_Ok, Hfmt, bind_Ok.
    change (insert0_or_tuple ?x (VTuple ps)) with (Ok (VTuple (x :: ps))).
    rewrite bind_Ok, Hinner. reflexivity.
Qed.

End RenderingMore.

(** ** Placeholders of the keyed left-hand side *)

Section Placeholders.
Import HStoreLookup.

(** Formatting a text that was formatted on its own, followed by more
    text: the first arguments go to the first part. *)
Lemma pyformat_app_bounded (n : nat) :
  ∀ a b xs ys s, (String.length a ≤ n)%nat →
    pyformat a xs = Ok s →
    pyformat (a +:+ b) (xs ++ ys) = (r ← pyformat b ys; Ok (s +:+ r)).
Proof.
  induction n as [|n IH]; intros a b xs ys s Hlen Ha.
  - destruct a; [|simpl in Hlen; lia].
    destruct xs; [|discriminate]. injection Ha as <-.
    change (EmptyString +:+ b) with b. simpl app.
    destruct (pyformat b ys); reflexivity.
  - destruct a as [|c a].
    { destruct xs; [|discriminate]. injection Ha as <-.
      change (EmptyString +:+ b) with b. simpl app.
      destruct (pyformat b ys); reflexivity. }
    change (String c a +:+ b) with (String c (a +:+ b)).
    simpl in Hlen.
    destruct (Ascii.eqb_spec c "%"%char) as [->|Hc].
    + destruct a as [|c2 a]; [discriminate|].
      change (String c2 a +:+ b) with (String c2 (a +:+ b)).
      simpl in Hlen.
      destruct (Ascii.eqb_spec c2 "s"%char) as [->|Hs].
      * destruct xs as [|x xs]; [discriminate|].
        simpl in Ha. simpl.
        destruct (pyformat a xs) as [r0|] eqn:Hr0; [|discriminate].
        injection Ha as <-.
        rewrite (IH a b xs ys r0) by (lia || done).
        destruct (pyformat b ys); [|reflexivity].
        simpl. by rewrite append_assoc.
      * destruct (Ascii.eqb_spec c2 "%"%char) as [->|Hp].
        -- simpl in Ha. simpl.
           destruct (pyformat a xs) as [r0|] eqn:Hr0; [|discriminate].
           injection Ha as <-.
           rewrite (IH a b xs ys r0) by (lia || done).
           destruct (pyformat b ys); reflexivity.
        -- exfalso. revert Ha. simpl.
           destruct c2 as [[] [] [] [] [] [] [] []]; try discriminate;
             congruence.
    + assert (pyformat (String c a) xs
              = (r ← pyformat a xs; Ok (String c r))) as Hstep.
      { simpl. destruct c as [[] [] [] [] [] [] [] []]; try reflexivity.
        congruence. }
      assert (pyformat (String c (a +:+ b)) (xs ++ ys)
              = (r ← pyformat (a +:+ b) (xs ++ ys); Ok (String c r))) as Hstep'.
      { simpl. destruct c as [[] [] [] [] [] [] [] []]; try reflexivity.
        congruence. }
      rewrite Hstep in Ha. rewrite Hstep'.
      destruct (pyformat a xs) as [r0|] eqn:Hr0; [|discriminate].
      injection Ha as <-.
      rewrite (IH a b xs ys r0) by (lia || done).
      destruct (pyformat b ys); reflexivity.
Qed.

Lemma pyformat_app a b xs ys s :
  pyformat a xs = Ok s →
  pyformat (a +:+ b) (xs ++ ys) = (r ← pyformat b ys; Ok (s +:+ r)).
Proof. apply (pyformat_app_bounded (String.length a)). done. Qed.

End Placeholders.

Section PlaceholderOrder.
Import HStoreLookup.
Context {QN Connection Annotation Field : Type}.
Variable get_lookup :
  FieldKind → list string →
  option (HStoreLookup.Lookup QN Connection Annotation Field).

Lemma extract_expr_filled toks lhs args s k :
  pyformat lhs args = Ok s →
  pyformat (extract_expr toks lhs) (args ++ [k])
  = pyformat (cast_template toks) [s +:+ " -> " +:+ k].
Proof.
  intros Hlhs.
  destruct (pyformat_cast (s +:+ " -> " +:+ k)) as (Hnone & Hint & Hdate).
  assert (pyformat (lhs +:+ " -> %s") (args ++ [k]) = Ok (s +:+ " -> " +:+ k))
    as Hplain.
  { rewrite (pyformat_app lhs " -> %s" args [k] s Hlhs).
    cbn. by rewrite append_empty_r. }
  assert (∀ tail, pyformat (String "("%char (lhs +:+ " -> %s" +:+ tail)) (args ++ [k])
                  = (r ← pyformat tail []; Ok ("(" +:+ (s +:+ " -> " +:+ k) +:+ r)))
    as Hwrapped.
  { intros tail.
    change (pyformat (String "("%char (lhs +:+ " -> %s" +:+ tail)) (args ++ [k]))
      with (r ← pyformat (lhs +:+ " -> %s" +:+ tail) (args ++ [k]);
            Ok (String "("%char r)).
    rewrite <- (append_assoc lhs " -> %s" tail).
    rewrite <- (app_nil_r (args ++ [k])).
    rewrite (pyformat_app (lhs +:+ " -> %s") tail (args ++ [k]) []
               (s +:+ " -> " +:+ k) Hplain).
    destruct (pyformat tail []) as [r|]; reflexivity. }
  unfold extract_expr, cast_template.
  destruct toks as [|first rest]; [by rewrite Hplain, Hnone|].
  destruct (String.eqb first "asint").
  { rewrite Hint. exact (Hwrapped ")::INTEGER"). }
  destruct (String.eqb first "asdate").
  { rewrite Hdate. exact (Hwrapped ")::DATE"). }
  by rewrite Hplain, Hnone.
Qed.

(** X10: in the left-hand side a keyed lookup builds, the placeholder of
    the hstore key comes after every placeholder the original left-hand
    side had: filling the arguments of the original followed by the key
    gives the cast of [<filled lhs> -> <key>] (and does succeed). *)
Theorem extraction_placeholder_comes_last key toks self c lhs e0 e args s k :
  key ≠ "exact" → key ≠ "contains" →
  __init__ get_lookup key (Some toks) = Ok self → cast self = Some c →
  pyformat "%s -> %%s" [lhs] = Ok e0 → pyformat c [e0] = Ok e →
  pyformat lhs args = Ok s →
  pyformat e (args ++ [k]) = pyformat c [s +:+ " -> " +:+ k] ∧
  succeeds (pyformat e (args ++ [k])) = true.
Proof.
  intros H1 H2 Hinit Hcast He0 He Hlhs.
  destruct (init_keyed_inv get_lookup key toks self H1 H2 Hinit)
    as (_ & Hc & _).
  rewrite Hc in Hcast. injection Hcast as <-.
  rewrite pyformat_extract in He0. injection He0 as <-.
  rewrite cast_template_format in He. injection He as <-.
  rewrite (extract_expr_filled toks lhs args s k Hlhs). split; [done|].
  destruct (pyformat_cast (s +:+ " -> " +:+ k)) as (Hnone & Hint & Hdate).
  unfold cast_template. destruct toks as [|first rest]; [by rewrite Hnone|].
  destruct (String.eqb first "asint"); [by rewrite Hint|].
  destruct (String.eqb first "asdate"); [by rewrite Hdate | by rewrite Hnone].
Qed.

End PlaceholderOrder.

(** ** Stored values and attributes *)

Section FieldsMore.
Import HStoreField.
Variable strftime_Ymd : date → result string.

Lemma date_to_text_keeps_other_values (v : pyobj) :
  is_date v = false → date_to_text strftime_Ymd v = v.
Proof. by destruct v. Qed.

(** A loop that came to its end had a text for every date. *)
Lemma prep_loop_returned (init m copy : gmap string pyobj) :
  map_fold (prep_item strftime_Ymd) (Ok init) m = Ok copy →
  dates_format strftime_Ymd m.
Proof.
  revert copy.
  apply (map_fold_weak_ind
           (λ r m, ∀ copy, r = Ok copy → dates_format strftime_Ymd m)).
  - intros copy _ k dt. by rewrite lookup_empty.
  - intros i x m' r Hfresh IH copy Hret k dt Hk. unfold prep_item in Hret.
    destruct r as [acc|]; [|discriminate]. rewrite bind_Ok in Hret.
    destruct (decide (i = k)) as [<-|Hne].
    + rewrite lookup_insert_eq in Hk. injection Hk as ->.
      destruct (strftime_Ymd dt); [reflexivity | discriminate].
    + rewrite lookup_insert_ne in Hk by done. by apply (IH acc eq_refl k dt).
Qed.

Lemma prepared_values_are_no_dates (d : gmap string pyobj) :
  dates_format strftime_Ymd d →
  ∀ k v, (date_to_text strftime_Ymd <$> d) !! k = Some v → is_date v = false.
Proof.
  intros Hfmt k v. rewrite lookup_fmap.
  destruct (d !! k) as [x|] eqn:Hk; simpl; [|done]. intros [= <-].
  destruct x as [| | | |dt| | |]; try reflexivity.
  specialize (Hfmt k dt Hk). simpl.
  destruct (strftime_Ymd dt); [reflexivity | discriminate].
Qed.

(** X11: a value that is not a dict is returned as it is, and a value
    that was prepared is returned unchanged when it is prepared again (a
    prepared dict is a dict and holds no date any more). *)
Theorem get_prep_value_idempotent (value : pyobj) :
  (is_dict value = false → get_prep_value strftime_Ymd value = Ok value) ∧
  (∀ prepared, get_prep_value strftime_Ymd value = Ok prepared →
     get_prep_value strftime_Ymd prepared = Ok prepared ∧
     is_dict prepared = is_dict value).
Proof.
  split.
  - by destruct value.
  - intros prepared Hprep.
    destruct value as [| | | | | | |d];
      try (injection Hprep as <-; split; reflexivity).
    assert (dates_format strftime_Ymd d) as Hfmt.
    { unfold get_prep_value in Hprep.
      destruct (map_fold (prep_item strftime_Ymd) (Ok d) d) as [copy|] eqn:Hloop;
        [|discriminate].
      by apply (prep_loop_returned d d copy). }
    rewrite (get_prep_value_dict strftime_Ymd d Hfmt) in Hprep.
    injection Hprep as <-. split; [|reflexivity].
    pose proof (prepared_values_are_no_dates d Hfmt) as Hnodate.
    rewrite get_prep_value_dict.
    + do 2 f_equal. apply map_eq. intros k. rewrite lookup_fmap.
      destruct ((date_to_text strftime_Ymd <$> d) !! k) as [v|] eqn:Hk;
        simpl; [|done].
      by rewrite (date_to_text_keeps_other_values v (Hnodate k v Hk)).
    + intros k dt Hk. by specialize (Hnodate k (VDate dt) Hk).
Qed.

(** X12: a mapping that is prepared for storage and converted back by
    [DictionaryField.to_python] comes back with each date as the text
    [strftime] gave for it; a mapping without date values, the empty one
    included, comes back as it was. *)
Theorem dictionary_round_trip (d : gmap string pyobj) :
  (dates_format strftime_Ymd d →
   (prepared ← get_prep_value strftime_Ymd (VDict d);
    Ok (DictionaryField.to_python prepared))
   = Ok (VDict (date_to_text strftime_Ymd <$> d))) ∧
  ((∀ k v, d !! k = Some v → is_date v = false) →
   (prepared ← get_prep_value strftime_Ymd (VDict d);
    Ok (DictionaryField.to_python prepared))
   = Ok (VDict d)).
Proof.
  assert (dates_format strftime_Ymd d →
          (prepared ← get_prep_value strftime_Ymd (VDict d);
           Ok (DictionaryField.to_python prepared))
          = Ok (VDict (date_to_text strftime_Ymd <$> d))) as Hback.
  { intros Hfmt. rewrite (get_prep_value_dict strftime_Ymd d Hfmt), bind_Ok.
    f_equal. unfold DictionaryField.to_python. simpl.
    rewrite map_size_fmap.
    destruct (Nat.eqb_spec (size d) 0) as [Hsize|Hsize]; simpl; [|reflexivity].
    apply map_size_empty_inv in Hsize as ->. by rewrite fmap_empty. }
  split; [exact Hback|]. intros Hnodate. rewrite Hback.
  - do 2 f_equal. apply map_eq. intros k. rewrite lookup_fmap.
    destruct (d !! k) as [v|] eqn:Hk; simpl; [|done].
    by rewrite (date_to_text_keeps_other_values v (Hnodate k v Hk)).
  - intros k dt Hk. by specialize (Hnodate k (VDate dt) Hk).
Qed.

(** X13: [DictionaryField.to_python] is idempotent, and what it returns
    is either truthy or the empty mapping. *)
Theorem to_python_idempotent (value : pyobj) :
  DictionaryField.to_python (DictionaryField.to_python value)
  = DictionaryField.to_python value ∧
  (truthy (DictionaryField.to_python value) = true
   ∨ DictionaryField.to_python value = VDict ∅).
Proof.
  unfold DictionaryField.to_python.
  destruct (truthy value) eqn:Htruthy.
  - rewrite Htruthy. split; [reflexivity | by left].
  - split; [reflexivity | by right].
Qed.

End FieldsMore.

Section Descriptor.
Import HStoreDescriptor.
Context {Field : Type}.
Variable dict_init : pyobj → gmap string pyobj → result (gmap string pyobj).
Variable name : Field → string.

(** X14: after a successful [__set__], [__get__] on the same instance
    gives an HStoreDictionary: the assigned one as it is (still bound to
    the field and instance it was made for) if it was one, otherwise a
    new one holding [dict(value)] and bound to this field and instance. *)
Theorem descriptor_set_then_get (self : HStoreDescriptor.t Field)
    (heap heap' : gmap nat (gmap string (attribute Field)))
    (instance : nat) (value : attribute Field) :
  __set__ dict_init name self heap instance value = Ok heap' →
  ∃ d, __get__ name self heap' (Some instance) = Ok (Hstore d) ∧
       match value with
       | Hstore d0 => d = d0
       | Plain v =>
           dict_init v ∅ = Ok (HStoreDictionary.items d) ∧
           HStoreDictionary.field d = Some (field self) ∧
           HStoreDictionary.instance d = Some instance
       end.
Proof.
  unfold __set__, __get__, __dict__. intros Hset.
  destruct value as [v|d0].
  - unfold HStoreDictionary.__init__ in Hset.
    destruct (dict_init v ∅) as [items|] eqn:Hitems; [|discriminate].
    rewrite !bind_Ok in Hset. injection Hset as <-.
    eexists. rewrite lookup_insert_eq. simpl. rewrite lookup_insert_eq.
    split; [reflexivity|]. done.
  - rewrite bind_Ok in Hset. injection Hset as <-.
    exists d0. rewrite lookup_insert_eq. simpl. by rewrite lookup_insert_eq.
Qed.

(** X15: [__set__] touches one attribute of one instance: reading any
    other instance, or another field name on the same instance, gives
    what it gave before. *)
Theorem descriptor_set_frame (self other : HStoreDescriptor.t Field)
    (heap heap' : gmap nat (gmap string (attribute Field)))
    (instance j : nat) (value : attribute Field) :
  __set__ dict_init name self heap instance value = Ok heap' →
  j ≠ instance ∨ name (field other) ≠ name (field self) →
  __get__ name other heap' (Some j) = __get__ name other heap (Some j).
Proof.
  unfold __set__, __get__, __dict__. intros Hset Hother.
  destruct (match value with
            | Plain v => HStoreDictionary.__init__ dict_init v
                           (Some (field self)) (Some instance) ∅
            | Hstore d => Ok d
            end) as [d|]; [|discriminate].
  rewrite bind_Ok in Hset. injection Hset as <-.
  destruct (decide (j = instance)) as [->|Hj].
  - destruct Hother as [Hne|Hname]; [done|].
    rewrite lookup_insert_eq. simpl. by rewrite lookup_insert_ne.
  - by rewrite lookup_insert_ne.
Qed.

End Descriptor.

(** ** The further properties at work on concrete lookups *)

Section ExamplesMore.
Import HStoreLookup.

Lemma asdate_gt_from_the_table :
  __init__ (Sample.get_lookup VNone) "mykey" (Some ["asdate"; "gt"])
  = Ok {| lookup_type := "mykey"; retval_field := Some DateField;
          nested_lookup := Some (Sample.comparison ">" VNone);
          cast := Some "(%s)::DATE" |} ∧
  __init__ (Sample.get_lookup VNone) "mykey" (Some ["gt"; "asdate"])
  = Raise (LookupError msg_too_deep).
Proof.
  split.
  - exact (keyed_resolution_table (Sample.get_lookup VNone) "mykey"
             ["asdate"; "gt"] ltac:(discriminate) ltac:(discriminate)).
  - exact (keyed_resolution_table (Sample.get_lookup VNone) "mykey"
             ["gt"; "asdate"] ltac:(discriminate) ltac:(discriminate)).
Defined.

Lemma unknown_comparison_is_a_lookup_error :
  (∃ e, __init__ (Sample.get_lookup VNone) "mykey" (Some ["lt"]) = Raise e ∧
        (e = LookupError (msg_no_nesting "mykey")
         ∨ e = LookupError msg_too_deep ∨ e = LookupError msg_unknown)) ∧
  (∃ e, __init__ (Sample.get_lookup VNone) "mykey" None = Raise e ∧
        e = TypeError ∧ is_top_level "mykey" = false).
Proof.
  split; eexists; (split; [reflexivity|]).
  - apply (resolution_failures (Sample.get_lookup VNone) "mykey" (Some ["lt"])).
    reflexivity.
  - apply (resolution_failures (Sample.get_lookup VNone) "mykey" None).
    reflexivity.
Defined.

Lemma mykey_asint_is_well_formed :
  lookup_type Sample.mykey_asint = "mykey" ∧
  ∃ kind nl name,
    retval_field Sample.mykey_asint = Some kind ∧
    nested_lookup Sample.mykey_asint = Some nl ∧
    Sample.get_lookup (VInt 5) kind [name] = Some nl ∧
    cast Sample.mykey_asint = Some match kind with
                                   | CharField => "%s"
                                   | IntegerField => "(%s)::INTEGER"
                                   | DateField => "(%s)::DATE"
                                   end.
Proof.
  apply (resolved_lookup_is_well_formed (Sample.get_lookup (VInt 5)) "mykey"
           (Some ["asint"]) Sample.mykey_asint).
  reflexivity.
Defined.

Lemma four_names_are_refused :
  ∃ msg, HStoreField.get_lookup (Sample.get_lookup VNone)
           ["mykey"; "asint"; "gt"; "extra"]
         = Raise (LookupError msg).
Proof.
  apply (long_paths_are_refused (Sample.get_lookup VNone)
           ["mykey"; "asint"; "gt"; "extra"]).
  simpl. lia.
Defined.

Lemma contains_on_three_shapes :
  as_constraint_sql Sample.Lookup_rhs_format (Sample.top_level "contains")
    tt tt "col" tt "%s" (VList [VDict {["a" := VStr "1"]}]) tt
  = Ok ("col @> %s", VList [VDict {["a" := VStr "1"]}]) ∧
  as_constraint_sql Sample.Lookup_rhs_format (Sample.top_level "contains")
    tt tt "col" tt "%s" (VList [VStr "a"]) tt
  = Ok ("col ? %s", VList [VStr "a"]) ∧
  as_constraint_sql Sample.Lookup_rhs_format (Sample.top_level "contains")
    tt tt "col" tt "%s" (VList [VInt 42]) tt
  = Raise (ValueError "invalid value").
Proof.
  split; [|split].
  - exact (contains_dispatch_on_shape Sample.Lookup_rhs_format tt tt tt
             (Sample.top_level "contains") "col" "%s"
             (VDict {["a" := VStr "1"]}) tt eq_refl).
  - exact (contains_dispatch_on_shape Sample.Lookup_rhs_format tt tt tt
             (Sample.top_level "contains") "col" "%s" (VStr "a") tt eq_refl).
  - exact (contains_dispatch_on_shape Sample.Lookup_rhs_format tt tt tt
             (Sample.top_level "contains") "col" "%s" (VInt 42) tt eq_refl).
Defined.

Lemma mykey_asint_constraint :
  as_constraint_sql Sample.Lookup_rhs_format Sample.mykey_asint tt tt
    "(col -> %s)::INTEGER" tt "%s" (VList [VInt 5]) tt
  = Ok ("(col -> %s)::INTEGER = %s", VList [VInt 5]).
Proof.
  destruct (keyed_constraint_is_delegated (Sample.get_lookup (VInt 5))
              Sample.Lookup_rhs_format tt tt tt "mykey" ["asint"]
              Sample.mykey_asint "(col -> %s)::INTEGER" "%s" (VList [VInt 5]) tt)
    as (nl & Hnl & ->); [discriminate | discriminate | reflexivity |].
  injection Hnl as <-. reflexivity.
Defined.

Lemma mykey_asint_normalize :
  common_normalize Sample.Lookup_common_normalize Sample.get_prep_lookup
    Sample.mykey_asint (VList [VInt 5]) tt tt tt
  = lk_common_normalize (Sample.comparison "=" (VInt 5)) (VList [VInt 5])
      (Some IntegerField) tt tt.
Proof.
  destruct (keyed_normalize_uses_retval_field (Sample.get_lookup (VInt 5))
              Sample.Lookup_common_normalize Sample.get_prep_lookup tt tt
              "mykey" ["asint"] Sample.mykey_asint (VList [VInt 5]) tt)
    as (nl & Hnl & ->); [discriminate | discriminate | reflexivity |].
  injection Hnl as <-. reflexivity.
Defined.

Lemma tuple_parameters_never_render :
  succeeds (as_sql Sample.Lookup_prepare_lhs Sample.Lookup_as_sql
              Sample.mykey_asint tt tt
              (VTuple [VStr "coalesce(col, %s)"; VTuple [VStr "a=>0"]]))
  = false ∧
  prepare_lhs Sample.Lookup_prepare_lhs Sample.mykey_asint
    (VTuple [VStr "coalesce(col, %s)"; VTuple [VStr "a=>0"]]) tt tt true
  = Raise AttributeError.
Proof.
  destruct (keyed_lhs_refuses_tuple_parameters Sample.Lookup_prepare_lhs
              Sample.Lookup_as_sql tt tt Sample.mykey_asint
              (Sample.comparison "=" (VInt 5))
              (VTuple [VStr "coalesce(col, %s)"; VTuple [VStr "a=>0"]])
              "coalesce(col, %s)" [VStr "a=>0"] true eq_refl eq_refl)
    as (_ & Hsql & Hraise).
  split; [exact Hsql|].
  apply (Hraise "(%s)::INTEGER" "(coalesce(col, %s) -> %s)::INTEGER"
           "(coalesce(col, %s) -> %s)::INTEGER" (VList [])); reflexivity.
Defined.

Lemma key_fills_the_last_placeholder :
  pyformat "(coalesce(col, %s) -> %s)::INTEGER" ["'a=>0'"; "'mykey'"]
  = Ok "(coalesce(col, 'a=>0') -> 'mykey')::INTEGER".
Proof.
  destruct (extraction_placeholder_comes_last (Sample.get_lookup (VInt 5))
              "mykey" ["asint"] Sample.mykey_asint "(%s)::INTEGER"
              "coalesce(col, %s)" "coalesce(col, %s) -> %s"
              "(coalesce(col, %s) -> %s)::INTEGER" ["'a=>0'"]
              "coalesce(col, 'a=>0')" "'mykey'")
    as [Hfill _];
    [discriminate | discriminate | reflexivity..|].
  exact Hfill.
Defined.

Lemma plain_mapping_round_trip :
  (prepared ← HStoreField.get_prep_value Sample.strftime_Ymd
                (VDict {["name" := VStr "Ann"]});
   Ok (DictionaryField.to_python prepared))
  = Ok (VDict {["name" := VStr "Ann"]}).
Proof.
  apply (dictionary_round_trip Sample.strftime_Ymd {["name" := VStr "Ann"]}).
  intros k v [_ <-]%lookup_singleton_Some. reflexivity.
Defined.

Lemma prepared_person_stays_prepared :
  HStoreField.get_prep_value Sample.strftime_Ymd VNone = Ok VNone ∧
  HStoreField.get_prep_value Sample.strftime_Ymd
    (VDict {["born" := VStr "1969-07-20"]})
  = Ok (VDict {["born" := VStr "1969-07-20"]}).
Proof.
  split.
  - apply (get_prep_value_idempotent Sample.strftime_Ymd VNone). reflexivity.
  - apply (get_prep_value_idempotent Sample.strftime_Ymd
             (VDict {["born" := VDate (Date 1969 7 20)]})).
    unfold HStoreField.get_prep_value. by rewrite map_fold_singleton.
Defined.

Lemma assign_a_dict_and_read_it :
  ∃ d, HStoreDescriptor.__get__ Sample.field_name Sample.data
         (<[1%nat := <["data" := HStoreDescriptor.Hstore
                        {| HStoreDictionary.items := ∅ ∪ {["a" := VStr "1"]};
                           HStoreDictionary.field := Some "data";
                           HStoreDictionary.instance := Some 1%nat |}]> ∅]> ∅)
         (Some 1%nat)
       = Ok (HStoreDescriptor.Hstore d) ∧
       Sample.dict_init (VDict {["a" := VStr "1"]}) ∅
       = Ok (HStoreDictionary.items d) ∧
       HStoreDictionary.field d = Some "data" ∧
       HStoreDictionary.instance d = Some 1%nat.
Proof.
  apply (descriptor_set_then_get Sample.dict_init Sample.field_name
           Sample.data ∅ _ 1%nat
           (HStoreDescriptor.Plain (VDict {["a" := VStr "1"]}))).
  reflexivity.
Defined.

Lemma assigning_data_leaves_tags :
  HStoreDescriptor.__get__ Sample.field_name Sample.tags
    (<[1%nat := <["data" := HStoreDescriptor.Hstore
                   {| HStoreDictionary.items := ∅ ∪ {["a" := VStr "1"]};
                      HStoreDictionary.field := Some "data";
                      HStoreDictionary.instance := Some 1%nat |}]> ∅]> ∅)
    (Some 1%nat)
  = HStoreDescriptor.__get__ Sample.field_name Sample.tags ∅ (Some 1%nat).
Proof.
  apply (descriptor_set_frame Sample.dict_init Sample.field_name
           Sample.data Sample.tags ∅ _ 1%nat 1%nat
           (HStoreDescriptor.Plain (VDict {["a" := VStr "1"]}))).
  - reflexivity.
  - right. discriminate.
Defined.

End ExamplesMore.
